(** * bagel-tests: the task resource lifecycle

    A shallow embedding of the full-stack starter
    (Express routes, service layer, Mongoose data layer, React Query hooks)
    and the properties of its task CRUD contract.

    Layout, leaves first:
    - [Js]: JavaScript values the code relies on (errors, promises, [trim]);
    - [Types]: [backend/src/types/index.ts];
    - [Database]: [backend/src/database/index.ts] (the Mongoose schema and
      the model operations the data layer calls);
    - [TaskData]: [backend/src/tasks/data.ts];
    - [TaskServices]: [backend/src/tasks/services.ts];
    - [TaskRoutes] and [App]: [backend/src/tasks/index.ts], [backend/src/app.ts];
    - [Client]: [frontend/src/lib/api.ts], [lib/queryKeys.ts], [hooks/useTasks.ts]. *)

From stdpp Require Import gmap strings list sorting.
From Stdlib Require Import ZArith Ascii String.

Local Open Scope string_scope.

(** ** JavaScript runtime values *)

Module Js.

(** A thrown [Error]: its [name] (the class the global error handler
    switches on), the optional numeric [code] of driver errors, and its
    [message]. *)
Record Error := mkError {
  name : string;
  code : option Z;
  message : string
}.

#[global] Instance Error_eq_dec : EqDecision Error.
Proof. solve_decision. Defined.

(** The settled state of a promise. *)
Inductive Promise (A : Type) : Type :=
  | Resolved (a : A)
  | Rejected (e : Error).
#[global] Arguments Resolved {A} a.
#[global] Arguments Rejected {A} e.

(** [async] functions over a store [S]: the store is threaded through,
    a rejection carries the store as it was left. *)
Definition Async (S A : Type) : Type := S -> Promise A * S.

Definition ret {S A} (a : A) : Async S A := fun s => (Resolved a, s).
Definition throw {S A} (e : Error) : Async S A := fun s => (Rejected e, s).
Definition bind {S A B} (m : Async S A) (k : A -> Async S B) : Async S B :=
  fun s => match m s with
           | (Resolved a, s') => k a s'
           | (Rejected e, s') => (Rejected e, s')
           end.
(** [try { m } catch (error) { h error }] *)
Definition try_catch {S A} (m : Async S A) (h : Error -> Async S A)
  : Async S A :=
  fun s => match m s with
           | (Resolved a, s') => (Resolved a, s')
           | (Rejected e, s') => h e s'
           end.

(** [new Error(msg)] *)
Definition new_Error (msg : string) : Error := mkError "Error" None msg.

(** White space and line terminators removed by [String.prototype.trim],
    for code units below 256: TAB, LF, VT, FF, CR, SP and NBSP. *)
Definition is_ws (c : ascii) : bool :=
  let n := nat_of_ascii c in
  (Nat.leb 9 n && Nat.leb n 13) || Nat.eqb n 32 || Nat.eqb n 160.

Fixpoint trimStart (s : string) : string :=
  match s with
  | EmptyString => EmptyString
  | String c r => if is_ws c then trimStart r else s
  end.

Fixpoint trimEnd (s : string) : string :=
  match s with
  | EmptyString => EmptyString
  | String c r =>
      match trimEnd r with
      | EmptyString => if is_ws c then EmptyString else String c EmptyString
      | r' => String c r'
      end
  end.

Definition trim (s : string) : string := trimEnd (trimStart s).

End Js.

(** [const x = await m; k] *)
Notation "'const' x '<-' 'await' m ;; k" := (Js.bind m (fun x => k))
  (at level 10, x name, m at level 99, k at level 200).

(** ** [src/types/index.ts] *)

Module Types.

(** [TaskStatus = z.enum(['open', 'done'])] *)
Definition TaskStatus : list string := ["open"; "done"].

(** [CreateTaskInput = { title: string }] *)
Record CreateTaskInput := mkCreate { c_title : string }.

(** [UpdateTaskInput = { title?: string, status?: ... }].  The status is
    kept as the string that arrives at run time. *)
Record UpdateTaskInput := mkUpdate {
  u_title : option string;
  u_status : option string
}.

(** [ITask], a document of the collection; dates are instants in
    milliseconds. *)
Record ITask := mkITask {
  _id : string;
  title : string;
  status : string;
  createdAt : Z;
  updatedAt : Z
}.

#[global] Instance ITask_eq_dec : EqDecision ITask.
Proof. solve_decision. Defined.

(** [TaskResponse], the wire shape of a task; the ISO-8601 rendering
    of the two dates is kept as the instant it denotes. *)
Module TaskResponse.
Record t := mk {
  id : string;
  title : string;
  status : string;
  createdAt : Z;
  updatedAt : Z
}.
End TaskResponse.

(** [TaskStats = { status: string, count: number }] *)
Record TaskStats := mkStats { s_status : string; s_count : nat }.

Definition is_hex (c : ascii) : bool :=
  let n := nat_of_ascii c in
  (Nat.leb 48 n && Nat.leb n 57) || (Nat.leb 97 n && Nat.leb n 102)
  || (Nat.leb 65 n && Nat.leb n 70).

Fixpoint all_hex (s : string) : bool :=
  match s with
  | EmptyString => true
  | String c r => is_hex c && all_hex r
  end.

(** [TaskParamsSchema]: [id] matches [/^[0-9a-fA-F]{24}$/]. *)
Definition TaskParamsSchema (id : string) : bool :=
  Nat.eqb (String.length id) 24 && all_hex id.

End Types.

(** ** [src/database/index.ts]: the task schema and the Mongoose model *)

Module Database.
Import Js Types.

(** The stored fields of a task document other than its key [_id]
    (the version key [__v], never read by the application, is left
    out). *)
Record Doc := mkDoc {
  d_title : string;
  d_status : string;
  d_createdAt : Z;
  d_updatedAt : Z
}.

#[global] Instance Doc_eq_dec : EqDecision Doc.
Proof. solve_decision. Defined.

(** The [tasks] collection, keyed by [_id]. *)
Abbreviation Collection := (gmap string Doc).

Definition toITask (id : string) (d : Doc) : ITask :=
  mkITask id (d_title d) (d_status d) (d_createdAt d) (d_updatedAt d).

(** *** [taskSchema] *)

(** A schema validator: the check and the message of its failure. *)
Definition Validator (A : Type) : Type := (A -> bool) * string.

(** [title]: [required], [minlength: 1], [maxlength: 200]; the
    [required] validator of a string path rejects the empty string. *)
Definition title_validators : list (Validator string) :=
  [ (fun v => negb (String.eqb v EmptyString), "Title is required");
    (fun v => Nat.leb 1 (String.length v), "Title cannot be empty");
    (fun v => Nat.leb (String.length v) 200,
      "Title cannot exceed 200 characters") ].

(** [status]: [enum: { values: ['open', 'done'] }]. *)
Definition status_validators : list (Validator string) :=
  [ (fun v => bool_decide (v ∈ TaskStatus),
      "Status must be either open or done") ].

(** [status]: [default: 'open']. *)
Definition status_default : string := "open".

(** Run the validators of a path in order; the first failure is
    reported. *)
Fixpoint doValidate {A} (vs : list (Validator A)) (v : A) : option string :=
  match vs with
  | [] => None
  | (ok, msg) :: r => if ok v then doValidate r v else Some msg
  end.

Definition ValidationError (msg : string) : Error :=
  mkError "ValidationError" None msg.

(** The message of a validation error: the heading, then every failing
    path with the text of its first failing validator, [path: text], the
    paths separated by commas. *)
Fixpoint join_errors (errs : list (string * string)) : string :=
  match errs with
  | [] => EmptyString
  | [(path, text)] => path ++ ": " ++ text
  | (path, text) :: rest => path ++ ": " ++ text ++ ", " ++ join_errors rest
  end.

Definition validation_message (heading : string)
  (errs : list (string * string)) : string :=
  heading ++ ": " ++ join_errors errs.

(** The failing paths of a value of path [path]. *)
Definition path_errors {A} (path : string) (vs : list (Validator A)) (v : A)
  : list (string * string) :=
  match doValidate vs v with
  | Some text => [(path, text)]
  | None => []
  end.

(** The driver's duplicate key error (E11000). *)
Definition DuplicateKeyError : Error :=
  mkError "MongoServerError" (Some 11000%Z) "E11000 duplicate key error".

(** [title]: [trim: true], the setter applied when a title is cast,
    on documents and on updates alike. *)
Definition cast_title (v : string) : string := trim v.

(** *** The model operations used by the data layer

    Mongoose is an external dependency; the operations below follow its
    documented behaviour under the schema options above
    ([timestamps: true]; for updates [new: true, runValidators: true]).
    The clock [now] and the generated key [oid] of a new document are
    inputs.

    The queries by [_id] look a record up under the id as it is spelled,
    which is how a record is found under the key it was saved with.
    Mongoose casts the id to an ObjectId first, so that a record stored
    under [ObjectId_hex id] is found under any spelling of [id]; what is
    stated below of an id without a record asks that none is stored under
    [ObjectId_hex id] either. *)

(** The hex string of the ObjectId an id is cast to: the lowercase form
    of a string of 24 hex digits, and, for drivers that take any other
    string as the bytes of an ObjectId, the hex digits of its bytes. *)
Definition hex_lower (c : ascii) : ascii :=
  let n := nat_of_ascii c in
  if Nat.leb 65 n && Nat.leb n 70 then ascii_of_nat (n + 32) else c.

Fixpoint lower_hex (s : string) : string :=
  match s with
  | EmptyString => EmptyString
  | String c r => String (hex_lower c) (lower_hex r)
  end.

Definition hex_digit (n : nat) : ascii :=
  ascii_of_nat (if Nat.ltb n 10 then 48 + n else 87 + n).

Fixpoint hex_of_bytes (s : string) : string :=
  match s with
  | EmptyString => EmptyString
  | String c r =>
      String (hex_digit (nat_of_ascii c / 16))
        (String (hex_digit (nat_of_ascii c mod 16)) (hex_of_bytes r))
  end.

Definition ObjectId_hex (id : string) : string :=
  if TaskParamsSchema id then lower_hex id else hex_of_bytes id.

(** [sort({ createdAt: -1 })]: a document comes before those created
    no later than it. *)
Definition newest_first (a b : ITask) : Prop :=
  (createdAt b <= createdAt a)%Z.

#[global] Instance newest_first_dec a b : Decision (newest_first a b).
Proof. unfold newest_first. apply _. Defined.

Definition all_docs (c : Collection) : list ITask :=
  (fun kv => toITask kv.1 kv.2) <$> map_to_list c.

(** [Task.find({}).sort({ createdAt: -1 })] *)
Definition find_sorted : Async Collection (list ITask) :=
  fun c => (Resolved (merge_sort newest_first (all_docs c)), c).

(** [new Task(data).save()] *)
Definition save (now : Z) (oid : string) (data : CreateTaskInput)
  : Async Collection ITask :=
  fun c =>
    let title := cast_title (c_title data) in
    match doValidate title_validators title,
          doValidate status_validators status_default with
    | Some _, _ | None, Some _ =>
        (Rejected
           (ValidationError
              (validation_message "Task validation failed"
                 (path_errors "title" title_validators title
                  ++ path_errors "status" status_validators
                       status_default))), c)
    | None, None =>
        match c !! oid with
        | Some _ => (Rejected DuplicateKeyError, c)
        | None =>
            let d := mkDoc title status_default now now in
            (Resolved (toITask oid d), <[oid := d]> c)
        end
    end.

(** [Task.findById(id)] *)
Definition findById (id : string) : Async Collection (option ITask) :=
  fun c => (Resolved (toITask id <$> c !! id), c).

(** The update validators: only the paths present in the update are
    checked, after casting. *)
Definition validate_update (u : UpdateTaskInput) : option string :=
  match u_title u with
  | Some v =>
      match doValidate title_validators (cast_title v) with
      | Some msg => Some msg
      | None =>
          match u_status u with
          | Some st => doValidate status_validators st
          | None => None
          end
      end
  | None =>
      match u_status u with
      | Some st => doValidate status_validators st
      | None => None
      end
  end.

(** The failing paths of an update, in the order of its keys, [title]
    before [status] as [UpdateTaskSchema] gives them. *)
Definition update_errors (u : UpdateTaskInput) : list (string * string) :=
  match u_title u with
  | Some v => path_errors "title" title_validators (cast_title v)
  | None => []
  end
  ++ match u_status u with
     | Some st => path_errors "status" status_validators st
     | None => []
     end.

(** The write of an update: [$set] of the provided fields and of
    [updatedAt]. *)
Definition apply_update (now : Z) (u : UpdateTaskInput) (d : Doc) : Doc :=
  mkDoc (default (d_title d) (cast_title <$> u_title u))
        (default (d_status d) (u_status u))
        (d_createdAt d)
        now.

(** [Task.findByIdAndUpdate(id, updates, { new: true, runValidators: true })] *)
Definition findByIdAndUpdate (now : Z) (id : string) (u : UpdateTaskInput)
  : Async Collection (option ITask) :=
  fun c =>
    match validate_update u with
    | Some _ =>
        (Rejected
           (ValidationError
              (validation_message "Validation failed" (update_errors u))),
         c)
    | None =>
        match c !! id with
        | None => (Resolved None, c)
        | Some d =>
            let d' := apply_update now u d in
            (Resolved (Some (toITask id d')), <[id := d']> c)
        end
    end.

(** [Task.findByIdAndDelete(id)] *)
Definition findByIdAndDelete (id : string)
  : Async Collection (option ITask) :=
  fun c => (Resolved (toITask id <$> c !! id), delete id c).

(** One more document for the group of key [k]. *)
Fixpoint bump (k : string) (acc : list TaskStats) : list TaskStats :=
  match acc with
  | [] => [mkStats k 1]
  | g :: r =>
      if decide (s_status g = k) then mkStats k (S (s_count g)) :: r
      else g :: bump k r
  end.

(** [Task.aggregate([{ $group: { _id: '$status', count: { $sum: 1 } } },
    { $project: { status: '$_id', count: 1, _id: 0 } }])] *)
Definition aggregate_by_status : Async Collection (list TaskStats) :=
  fun c =>
    (Resolved (foldl (fun acc t => bump (status t) acc) [] (all_docs c)), c).

(** [Task.countDocuments()] *)
Definition countDocuments : Async Collection nat :=
  fun c => (Resolved (size c), c).

(** The documents inserted by [docker/mongo-init.js], created at
    [now], one day and two days before. *)
Definition seed (now : Z) : Collection :=
  <["650000000000000000000001" :=
      mkDoc "Complete the full-stack home test" "open" now now]>
  (<["650000000000000000000002" :=
      mkDoc "Review React Query documentation" "done"
            (now - 86400000) (now - 86400000)]>
  (<["650000000000000000000003" :=
      mkDoc "Set up MongoDB with proper indexing" "open"
            (now - 172800000) (now - 172800000)]> ∅)).

End Database.

(** ** [src/tasks/data.ts] *)

Module TaskData.
Import Js Types Database.

(** A write issued to the store, with the inputs it is given. *)
Inductive Op :=
  | OpCreate (now : Z) (oid : string) (data : CreateTaskInput)
  | OpUpdate (now : Z) (id : string) (updates : UpdateTaskInput)
  | OpDelete (id : string).

Section with_engine.

(** [Types.ObjectId.isValid] of the storage driver. *)
Variable ObjectId_isValid : string -> bool.

(** [validateObjectId] *)
Definition validateObjectId (id : string) : Async Collection unit :=
  if negb (ObjectId_isValid id)
  then throw (new_Error "Invalid task ID format")
  else ret tt.

Definition findAll : Async Collection (list ITask) := find_sorted.

Definition create (now : Z) (oid : string) (data : CreateTaskInput)
  : Async Collection ITask :=
  save now oid data.

Definition findById (id : string) : Async Collection (option ITask) :=
  const _u <- await validateObjectId id ;;
  Database.findById id.

Definition updateById (now : Z) (id : string) (updates : UpdateTaskInput)
  : Async Collection (option ITask) :=
  const _u <- await validateObjectId id ;;
  findByIdAndUpdate now id updates.

Definition deleteById (id : string) : Async Collection (option ITask) :=
  const _u <- await validateObjectId id ;;
  findByIdAndDelete id.

Definition getStats : Async Collection (list TaskStats) :=
  aggregate_by_status.

Definition count : Async Collection nat := countDocuments.

(** The collection after a write, whether it succeeded or not. *)
Definition exec (op : Op) (c : Collection) : Collection :=
  match op with
  | OpCreate now oid data => (create now oid data c).2
  | OpUpdate now id updates => (updateById now id updates c).2
  | OpDelete id => (deleteById id c).2
  end.

(** The collection after a sequence of writes. *)
Definition run_ops (ops : list Op) (c : Collection) : Collection :=
  foldl (fun c op => exec op c) c ops.

End with_engine.

End TaskData.

(** ** [src/tasks/services.ts] *)

Module TaskServices.
Import Js Types Database.

(** [formatTaskResponse] *)
Definition formatTaskResponse (task : ITask) : TaskResponse.t :=
  TaskResponse.mk (_id task) (title task) (status task)
                  (createdAt task) (updatedAt task).

Definition getAllTasks : Async Collection (list TaskResponse.t) :=
  const tasks <- await TaskData.findAll ;;
  ret (formatTaskResponse <$> tasks).

Definition createTask (data : CreateTaskInput)
  : Async Collection TaskResponse.t :=
  throw (new_Error
    "Not implemented yet - you need to implement task creation in services!").

Definition getTaskById (id : string) : Async Collection TaskResponse.t :=
  throw (new_Error
    "Not implemented yet - you need to implement get task by ID in services!").

Definition updateTask (id : string) (updates : UpdateTaskInput)
  : Async Collection TaskResponse.t :=
  throw (new_Error
    "Not implemented yet - you need to implement task updates in services!").

Definition deleteTask (id : string) : Async Collection unit :=
  throw (new_Error
    "Not implemented yet - you need to implement task deletion in services!").

Definition getTaskStats : Async Collection (list TaskStats) :=
  TaskData.getStats.

Definition hasAnyTasks : Async Collection bool :=
  const count <- await TaskData.count ;;
  ret (Nat.ltb 0 count).

End TaskServices.

(** ** Express: requests, responses and route matching *)

Module Express.
Import Js Types.

Inductive Method := GET | POST | PATCH | DELETE | PUT.

#[global] Instance Method_eq_dec : EqDecision Method.
Proof. solve_decision. Defined.

(** A field value of a parsed JSON body. *)
Inductive JsonValue :=
  | JNull
  | JBool (b : bool)
  | JNum (n : Z)
  | JStr (s : string).

(** A request: its method, its path, and the fields of its JSON body. *)
Record Request := mkRequest {
  method : Method;
  path : string;
  body : list (string * JsonValue)
}.

(** What a response carries in [data]. *)
Inductive Payload :=
  | TaskList (l : list TaskResponse.t)
  | StatsList (l : list TaskStats)
  | OneTask (t : TaskResponse.t).

(** [ApiResponse], the envelope. *)
Record ApiResponse := mkApi {
  success : bool;
  data : option Payload;
  error : option string;
  details : option string
}.

Record Response := mkResponse {
  statusCode : nat;
  json : ApiResponse
}.

(** What a handler does with a request: it sends a response or hands an
    error to [next]. *)
Inductive Outcome :=
  | Sent (r : Response)
  | Next (e : Error).

(** [res.json(x)] answers with status 200 unless [res.status] was
    called. *)
Definition res_json (x : ApiResponse) : Response := mkResponse 200 x.
Definition res_status_json (code : nat) (x : ApiResponse) : Response :=
  mkResponse code x.

(** *** Path matching

    Routes are matched as Express does by default: case-insensitively,
    with one optional trailing slash, against the whole remaining path.
    [match_path] gives the parameters as the pattern captures them;
    [resolve] below decodes them. *)

Definition lower_ascii (c : ascii) : ascii :=
  let n := nat_of_ascii c in
  if Nat.leb 65 n && Nat.leb n 90 then ascii_of_nat (n + 32) else c.

Fixpoint lower (s : string) : string :=
  match s with
  | EmptyString => EmptyString
  | String c r => String (lower_ascii c) (lower r)
  end.

Definition is_slash (c : ascii) : bool := Ascii.eqb c "/"%char.

Fixpoint has_slash (s : string) : bool :=
  match s with
  | EmptyString => false
  | String c r => is_slash c || has_slash r
  end.

(** Drop the one trailing slash the pattern tolerates. *)
Fixpoint strip_trailing_slash (s : string) : string :=
  match s with
  | EmptyString => EmptyString
  | String c EmptyString => if is_slash c then EmptyString else s
  | String c r => String c (strip_trailing_slash r)
  end.

Inductive Pattern :=
  | Root                      (* '/' *)
  | Literal (seg : string)    (* '/seg' *)
  | Param (name : string).    (* '/:name' *)

(** The parameters bound when the pattern matches the path. *)
Definition match_path (p : Pattern) (path : string)
  : option (list (string * string)) :=
  match p with
  | Root =>
      if String.eqb path EmptyString || String.eqb path "/" then Some [] else None
  | Literal seg =>
      if String.eqb (lower (strip_trailing_slash path))
                    (lower (String "/" seg))
      then Some [] else None
  | Param name =>
      match path with
      | String c rest =>
          let seg := strip_trailing_slash rest in
          if is_slash c && negb (String.eqb seg EmptyString) && negb (has_slash seg)
          then Some [(name, seg)] else None
      | EmptyString => None
      end
  end.

(** [app.use(mount, router)]: the path below the mount point, when the
    request path starts with it. *)
Fixpoint strip_prefix (pre s : string) : option string :=
  match pre, s with
  | EmptyString, _ => Some s
  | String a pre', String b s' =>
      if Ascii.eqb (lower_ascii a) (lower_ascii b)
      then strip_prefix pre' s' else None
  | String _ _, EmptyString => None
  end.

(** The mount path is matched with the slash that follows it when
    another slash or the end of the path comes next, and what was matched
    is cut off; the rest starts with a slash, added when missing. *)
Definition mounted (mount path : string) : option string :=
  match strip_prefix mount path with
  | Some EmptyString => Some "/"
  | Some (String c r) =>
      if is_slash c then
        match r with
        | EmptyString => Some "/"
        | String c' _ => if is_slash c' then Some r else Some (String c r)
        end
      else None
  | None => None
  end.

(** A router: its routes in registration order.  The first route whose
    method and pattern match handles the request. *)
Definition Router (H : Type) : Type := list (Method * Pattern * H).

Fixpoint route {H} (r : Router H) (m : Method) (path : string)
  : option (H * list (string * string)) :=
  match r with
  | [] => None
  | (m', p, h) :: r' =>
      if decide (m' = m) then
        match match_path p path with
        | Some params => Some (h, params)
        | None => route r' m path
        end
      else route r' m path
  end.

(** *** Percent-decoding

    [decodeURIComponent], which Express applies to every captured
    parameter and, for the path [*], to the whole path.  An escape is
    [%] and two hex digits; the escaped bytes must be the UTF-8 encoding
    of code points.  The decoded text is kept when all its code units are
    below 256, the strings of this development; [Wide] stands for a
    well-formed text with a code unit from 256 up. *)

Definition hex_value (c : ascii) : option N :=
  let n := N_of_ascii c in
  if N.leb 48 n && N.leb n 57 then Some (n - 48)%N
  else if N.leb 97 n && N.leb n 102 then Some (n - 87)%N
  else if N.leb 65 n && N.leb n 70 then Some (n - 55)%N
  else None.

Definition is_percent (c : ascii) : bool := Ascii.eqb c "%"%char.

Fixpoint has_percent (s : string) : bool :=
  match s with
  | EmptyString => false
  | String c r => is_percent c || has_percent r
  end.

Inductive Token :=
  | Lit (c : ascii)      (* a character that stands for itself *)
  | Esc (byte : N)       (* an escape *)
  | BadEsc.              (* a percent sign without two hex digits *)

Fixpoint tokens (s : string) : list Token :=
  match s with
  | EmptyString => []
  | String c r =>
      if is_percent c then
        match r with
        | String h1 (String h2 r') =>
            match hex_value h1, hex_value h2 with
            | Some a, Some b => Esc (16 * a + b) :: tokens r'
            | _, _ => [BadEsc]
            end
        | _ => [BadEsc]
        end
      else Lit c :: tokens r
  end.

Inductive Decoded :=
  | Malformed            (* a URIError *)
  | Wide
  | Narrow (s : string).

Definition push (c : ascii) (d : Decoded) : Decoded :=
  match d with
  | Narrow s => Narrow (String c s)
  | other => other
  end.

Definition push_point (cp : N) (d : Decoded) : Decoded :=
  if N.ltb cp 256 then push (ascii_of_N cp) d
  else match d with Malformed => Malformed | _ => Wide end.

(** A continuation byte, [10xxxxxx]. *)
Definition is_cont (b : N) : bool := N.leb 128 b && N.ltb b 192.

Fixpoint decode_tokens (ts : list Token) : Decoded :=
  match ts with
  | [] => Narrow EmptyString
  | Lit c :: r => push c (decode_tokens r)
  | BadEsc :: _ => Malformed
  | Esc b :: r =>
      if N.ltb b 128 then push (ascii_of_N b) (decode_tokens r)
      else if N.leb 192 b && N.ltb b 224 then
        match r with
        | Esc b1 :: r' =>
            let cp := ((b - 192) * 64 + (b1 - 128))%N in
            if is_cont b1 && N.leb 128 cp
            then push_point cp (decode_tokens r') else Malformed
        | _ => Malformed
        end
      else if N.leb 224 b && N.ltb b 240 then
        match r with
        | Esc b1 :: Esc b2 :: r' =>
            let cp := ((b - 224) * 4096 + (b1 - 128) * 64 + (b2 - 128))%N in
            if is_cont b1 && is_cont b2 && N.leb 2048 cp
               && negb (N.leb 55296 cp && N.leb cp 57343)
            then push_point cp (decode_tokens r') else Malformed
        | _ => Malformed
        end
      else if N.leb 240 b && N.ltb b 248 then
        match r with
        | Esc b1 :: Esc b2 :: Esc b3 :: r' =>
            let cp := ((b - 240) * 262144 + (b1 - 128) * 4096
                       + (b2 - 128) * 64 + (b3 - 128))%N in
            if is_cont b1 && is_cont b2 && is_cont b3
               && N.leb 65536 cp && N.leb cp 1114111
            then push_point cp (decode_tokens r') else Malformed
        | _ => Malformed
        end
      else Malformed
  end.

Definition decodeURIComponent (s : string) : Decoded :=
  decode_tokens (tokens s).

(** The error Express raises for a value it cannot decode. *)
Definition URIError (val : string) : Error :=
  mkError "URIError" None ("Failed to decode param '" ++ val ++ "'").

(** The parameters of a matched layer, decoded in order. *)
Inductive Params :=
  | Decodes (params : list (string * string))
  | DecodesWide
  | DecodeFails (e : Error).

Fixpoint decode_params (raw : list (string * string)) : Params :=
  match raw with
  | [] => Decodes []
  | (k, v) :: r =>
      match decodeURIComponent v with
      | Malformed => DecodeFails (URIError v)
      | Wide =>
          match decode_params r with
          | DecodeFails e => DecodeFails e
          | _ => DecodesWide
          end
      | Narrow s =>
          match decode_params r with
          | Decodes l => Decodes ((k, s) :: l)
          | other => other
          end
      end
  end.

(** *** Dispatch within a router

    The routes are tried in registration order.  A layer is matched on
    the path first; its parameters are then decoded, and a failure there
    ends the search with that error, whatever the method of the route.  The
    first route whose path matches and decodes and whose method is that of
    the request handles it. *)
Inductive Routing (H : Type) : Type :=
  | RouteTo (h : H) (params : list (string * string))
  | RouteToWide (h : H)
  | RouteError (e : Error)
  | NoRoute.
Arguments RouteTo {H} h params.
Arguments RouteToWide {H} h.
Arguments RouteError {H} e.
Arguments NoRoute {H}.

Fixpoint resolve {H} (r : Router H) (m : Method) (path : string)
  : Routing H :=
  match r with
  | [] => NoRoute
  | (m', p, h) :: r' =>
      match match_path p path with
      | None => resolve r' m path
      | Some raw =>
          match decode_params raw with
          | DecodeFails e => RouteError e
          | Decodes params =>
              if decide (m' = m) then RouteTo h params
              else resolve r' m path
          | DecodesWide =>
              if decide (m' = m) then RouteToWide h else resolve r' m path
          end
      end
  end.

End Express.

(** ** [src/tasks/index.ts] *)

Module TaskRoutes.
Import Js Types Database Express.

(** The six registered handlers. *)
Inductive Handler :=
  | GetStats      (* router.get('/stats') *)
  | GetTasks      (* router.get('/') *)
  | PostTask      (* router.post('/') *)
  | GetTaskById   (* router.get('/:id') *)
  | PatchTask     (* router.patch('/:id') *)
  | DeleteTask.   (* router.delete('/:id') *)

#[global] Instance Handler_eq_dec : EqDecision Handler.
Proof. solve_decision. Defined.

(** The routes, in the order the file registers them. *)
Definition router : Router Handler :=
  [ (GET, Literal "stats", GetStats);
    (GET, Root, GetTasks);
    (POST, Root, PostTask);
    (GET, Param "id", GetTaskById);
    (PATCH, Param "id", PatchTask);
    (DELETE, Param "id", DeleteTask) ].

(** [try { const x = await m; res.json(k x) } catch (error) { next(error) }] *)
Definition respond {A} (m : Async Collection A) (k : A -> Response)
  : Collection -> Outcome * Collection :=
  fun c => match m c with
           | (Resolved a, c') => (Sent (k a), c')
           | (Rejected e, c') => (Next e, c')
           end.

Definition not_implemented (msg : string) : Response :=
  res_status_json 501 (mkApi false None (Some msg) None).

Definition run (h : Handler) (req : Request)
  (params : list (string * string)) : Collection -> Outcome * Collection :=
  match h with
  | GetStats =>
      respond TaskServices.getTaskStats
        (fun stats => res_json (mkApi true (Some (StatsList stats)) None None))
  | GetTasks =>
      respond TaskServices.getAllTasks
        (fun tasks => res_json (mkApi true (Some (TaskList tasks)) None None))
  | PostTask =>
      respond (ret tt) (fun _ => not_implemented
        "Not implemented yet - you need to implement task creation!")
  | GetTaskById =>
      respond (ret tt) (fun _ => not_implemented
        "Not implemented yet - you need to implement get task by ID!")
  | PatchTask =>
      respond (ret tt) (fun _ => not_implemented
        "Not implemented yet - you need to implement task updates!")
  | DeleteTask =>
      respond (ret tt) (fun _ => not_implemented
        "Not implemented yet - you need to implement task deletion!")
  end.

End TaskRoutes.

(** ** [src/app.ts] *)

Module App.
Import Js Types Database Express.

(** The 404 handler, [app.use('*', ...)]. *)
Definition notFound : Response :=
  res_status_json 404 (mkApi false None (Some "Endpoint not found") None).

(** The global error handler; [production] is
    [process.env.NODE_ENV === 'production']. *)
Definition errorHandler (production : bool) (e : Error) : Response :=
  if String.eqb (name e) "MongoServerError"
     && bool_decide (code e = Some 11000%Z)
  then res_status_json 400 (mkApi false None (Some "Duplicate entry") None)
  else if String.eqb (name e) "ValidationError"
  then res_status_json 400
         (mkApi false None (Some "Validation failed") (Some (message e)))
  else if String.eqb (name e) "CastError"
  then res_status_json 400 (mkApi false None (Some "Invalid ID format") None)
  else res_status_json 500
         (mkApi false None
            (Some (if production then "Internal server error"
                   else message e)) None).

(** Where a request goes: [healthRoutes] (not part of the task
    contract), a handler of [taskRoutes] (with its parameters, or with
    parameters out of the strings of this development, which no handler
    reads), the global error handler with an error raised on the way, or
    the 404 handler. *)
Inductive Target :=
  | ToHealth (rest : string)
  | ToTask (h : TaskRoutes.Handler) (params : list (string * string))
  | ToTaskWide (h : TaskRoutes.Handler)
  | ToError (e : Error)
  | ToNotFound.

(** [app.use('*', ...)]: the layer decodes the whole path as its
    parameter before the 404 handler runs. *)
Definition fallthrough (p : string) : Target :=
  match decodeURIComponent p with
  | Malformed => ToError (URIError p)
  | _ => ToNotFound
  end.

(** [app.use('/api/health', healthRoutes); app.use('/api/tasks', taskRoutes);
    app.use('*', ...)] *)
Definition dispatch (m : Method) (p : string) : Target :=
  match mounted "/api/health" p with
  | Some rest => ToHealth rest
  | None =>
      match mounted "/api/tasks" p with
      | Some rest =>
          match resolve TaskRoutes.router m rest with
          | RouteTo h params => ToTask h params
          | RouteToWide h => ToTaskWide h
          | RouteError e => ToError e
          | NoRoute => fallthrough p
          end
      | None => fallthrough p
      end
  end.

(** The response to a request that does not go to [healthRoutes]. *)
Definition handle (production : bool) (req : Request) (c : Collection)
  : option (Response * Collection) :=
  match dispatch (method req) (path req) with
  | ToHealth _ => None
  | ToTask h params =>
      match TaskRoutes.run h req params c with
      | (Sent r, c') => Some (r, c')
      | (Next e, c') => Some (errorHandler production e, c')
      end
  | ToTaskWide h =>
      match TaskRoutes.run h req [] c with
      | (Sent r, c') => Some (r, c')
      | (Next e, c') => Some (errorHandler production e, c')
      end
  | ToError e => Some (errorHandler production e, c)
  | ToNotFound => Some (notFound, c)
  end.

End App.

(** ** The frontend: [lib/api.ts], [lib/queryKeys.ts], [hooks/useTasks.ts] *)

Module Client.
Import Js.

(** [types/task.ts]: [Task], with its dates as the ISO strings of the
    wire. *)
Record Task := mkTask {
  id : string;
  title : string;
  status : string;
  createdAt : string;
  updatedAt : string
}.

Record CreateTaskInput := mkCreate { c_title : string }.

Record TaskStats := mkStats { s_status : string; s_count : nat }.

(** *** [lib/api.ts] *)

Module taskApi.
Definition createTask (input : CreateTaskInput) : Promise Task :=
  Rejected (new_Error
    "createTask not implemented yet - you need to implement this!").
End taskApi.

(** *** [lib/queryKeys.ts] *)

Module queryKeys.
Definition tasks : list string := ["tasks"].
Definition taskStats : list string := ["taskStats"].
Definition tasksList : list string := tasks ++ ["list"].
Definition tasksDetail (id : string) : list string :=
  tasks ++ ["detail"; id].
Definition tasksStats : list string := taskStats.
End queryKeys.

(** *** The query cache

    React Query is an external dependency; the cache below keeps, for
    each query key, the cached data and whether the query has been
    invalidated (an invalidated query is refetched in the background,
    its data stays readable until the refetch arrives). *)

Inductive QueryData :=
  | TasksData (l : list Task)
  | StatsData (l : list TaskStats).

Record Query := mkQuery {
  q_data : option QueryData;
  q_invalidated : bool
}.

Abbreviation QueryCache := (gmap (list string) Query).

(** [queryClient.getQueryData(key)] *)
Definition getQueryData (key : list string) (c : QueryCache)
  : option QueryData :=
  match c !! key with
  | Some q => q_data q
  | None => None
  end.

(** [queryClient.setQueryData(key, data)] *)
Definition setQueryData (key : list string) (d : option QueryData)
  (c : QueryCache) : QueryCache :=
  <[key := mkQuery d false]> c.

Fixpoint is_prefix (k key : list string) : bool :=
  match k, key with
  | [], _ => true
  | a :: k', b :: key' => String.eqb a b && is_prefix k' key'
  | _ :: _, [] => false
  end.

(** [queryClient.invalidateQueries({ queryKey: k })]: every query whose
    key starts with [k] is marked invalidated. *)
Definition invalidateQueries (k : list string) (c : QueryCache)
  : QueryCache :=
  map_imap (fun key q =>
    Some (if is_prefix k key then mkQuery (q_data q) true else q)) c.

(** *** Mutations

    The options of [useMutation] and the life cycle React Query runs
    them through: [onMutate] when the mutation is issued, then, once
    [mutationFn] has settled, [onSuccess] or [onError], then
    [onSettled]. *)

Record MutationOptions (V D Ctx : Type) := mkMutation {
  mutationFn : V -> Promise D;
  onMutate : option (V -> QueryCache -> Ctx * QueryCache);
  onSuccess : option (D -> V -> QueryCache -> QueryCache);
  onError : option (Error -> V -> option Ctx -> QueryCache -> QueryCache);
  onSettled : option (QueryCache -> QueryCache)
}.
Arguments mutationFn {V D Ctx} _.
Arguments onMutate {V D Ctx} _.
Arguments onSuccess {V D Ctx} _.
Arguments onError {V D Ctx} _.
Arguments onSettled {V D Ctx} _.

Section lifecycle.
Context {V D Ctx : Type} (opts : MutationOptions V D Ctx).

(** Issue: the cache as it is while the request is in flight. *)
Definition issue (v : V) (c : QueryCache) : option Ctx * QueryCache :=
  match onMutate opts with
  | Some f => let '(ctx, c') := f v c in (Some ctx, c')
  | None => (None, c)
  end.

(** Resolve: the cache once the request has settled with [r]. *)
Definition resolve (v : V) (ctx : option Ctx) (r : Promise D)
  (c : QueryCache) : QueryCache :=
  let c' :=
    match r with
    | Resolved d =>
        match onSuccess opts with Some f => f d v c | None => c end
    | Rejected e =>
        match onError opts with Some f => f e v ctx c | None => c end
    end in
  match onSettled opts with Some f => f c' | None => c' end.

(** The whole mutation, with the outcome [mutationFn] gives. *)
Definition mutate (v : V) (c : QueryCache) : Promise D * QueryCache :=
  let '(ctx, c1) := issue v c in
  let r := mutationFn opts v in
  (r, resolve v ctx r c1).
End lifecycle.

(** *** [hooks/useTasks.ts] *)

Definition useCreateTask : MutationOptions CreateTaskInput Task unit :=
  {| mutationFn := taskApi.createTask;
     onMutate := None;
     onSuccess := Some (fun _ _ => invalidateQueries queryKeys.tasksList);
     onError := None;
     onSettled := None |}.

End Client.

(** ** [src/types/index.ts]: the request schemas *)

Module Schemas.
Import Js Types Express.

(** An issue of a failed parse: a value of the wrong type, a string
    check failed with its message, or a string outside the enum. *)
Inductive Issue :=
  | InvalidType
  | Message (msg : string)
  | InvalidEnumValue.

(** What [safeParse] returns; [parse] throws a [ZodError] with the issues
    instead. *)
Inductive SafeParse (A : Type) : Type :=
  | ParseSuccess (data : A)
  | ParseFailure (issues : list Issue).
Arguments ParseSuccess {A} data.
Arguments ParseFailure {A} issues.

(** The value of a field of a parsed JSON body; of two fields with the
    same name the later one counts. *)
Fixpoint get_field (k : string) (body : list (string * JsonValue))
  : option JsonValue :=
  match body with
  | [] => None
  | (k', v) :: r =>
      match get_field k r with
      | Some v' => Some v'
      | None => if String.eqb k' k then Some v else None
      end
  end.

(** [z.string().min(1, min_msg).max(200, ...).trim()]: the checks run in
    the order they are chained, so both lengths are those of the string as
    received, and the trimmed string is the output. *)
Definition title_issues (min_msg : string) (raw : string) : list Issue :=
  (if Nat.ltb (String.length raw) 1 then [Message min_msg] else [])
  ++ (if Nat.ltb 200 (String.length raw)
      then [Message "Title cannot exceed 200 characters"] else []).

Definition title_schema (min_msg : string) (v : JsonValue)
  : SafeParse string :=
  match v with
  | JStr raw =>
      match title_issues min_msg raw with
      | [] => ParseSuccess (trim raw)
      | issues => ParseFailure issues
      end
  | _ => ParseFailure [InvalidType]
  end.

(** [TaskStatus = z.enum(['open', 'done'])] *)
Definition status_schema (v : JsonValue) : SafeParse string :=
  match v with
  | JStr s =>
      if bool_decide (s ∈ TaskStatus) then ParseSuccess s
      else ParseFailure [InvalidEnumValue]
  | _ => ParseFailure [InvalidType]
  end.

(** [schema.optional()]: an absent field parses to [undefined]. *)
Definition optional {A} (schema : JsonValue -> SafeParse A)
  (v : option JsonValue) : SafeParse (option A) :=
  match v with
  | None => ParseSuccess None
  | Some x =>
      match schema x with
      | ParseSuccess a => ParseSuccess (Some a)
      | ParseFailure issues => ParseFailure issues
      end
  end.

(** [CreateTaskSchema.safeParse(body)] *)
Definition CreateTaskSchema (body : list (string * JsonValue))
  : SafeParse CreateTaskInput :=
  match get_field "title" body with
  | None => ParseFailure [InvalidType]
  | Some v =>
      match title_schema "Title is required" v with
      | ParseSuccess t => ParseSuccess (mkCreate t)
      | ParseFailure issues => ParseFailure issues
      end
  end.

(** [UpdateTaskSchema.safeParse(body)]: the issues of both fields are
    reported together. *)
Definition UpdateTaskSchema (body : list (string * JsonValue))
  : SafeParse UpdateTaskInput :=
  match optional (title_schema "Title cannot be empty")
                 (get_field "title" body),
        optional status_schema (get_field "status" body) with
  | ParseSuccess t, ParseSuccess st => ParseSuccess (mkUpdate t st)
  | ParseFailure i1, ParseFailure i2 => ParseFailure (i1 ++ i2)
  | ParseFailure i1, ParseSuccess _ => ParseFailure i1
  | ParseSuccess _, ParseFailure i2 => ParseFailure i2
  end.

End Schemas.

(** ** [src/health/index.ts] and [src/health/services.ts] *)

Module Health.
Import Js Types Database Express.

Inductive HealthStatus := healthy | unhealthy.
Inductive DbStatus := connected | disconnected.

#[global] Instance HealthStatus_eq_dec : EqDecision HealthStatus.
Proof. solve_decision. Defined.

Section with_process.

(** The types of [process.uptime()] and [process.memoryUsage()]. *)
Variables Uptime MemoryUsage : Type.

(** What a health check reads from its environment: the clock as an ISO
    string, the two process figures and
    [mongoose.connection.readyState]. *)
Record Process := mkProcess {
  timestamp : string;
  uptime : Uptime;
  memory : MemoryUsage;
  readyState : nat
}.

Record Info := mkInfo {
  i_uptime : Uptime;
  i_memory : MemoryUsage;
  tasksCount : nat
}.

Record Report := mkReport {
  h_status : HealthStatus;
  h_timestamp : string;
  database : DbStatus;
  api : string;
  info : Info
}.

(** [HealthServices.checkHealth] *)
Definition checkHealth (p : Process) : Async Collection Report :=
  fun c =>
    let dbStatus :=
      if Nat.eqb (readyState p) 1 then connected else disconnected in
    let '(count, c') :=
      match TaskServices.hasAnyTasks c with
      | (Resolved hasAnyTasks, c') => (if hasAnyTasks then 1 else 0, c')
      | (Rejected _, c') => (0, c')
      end in
    let isHealthy :=
      match dbStatus with connected => true | disconnected => false end in
    (Resolved
       (mkReport (if isHealthy then healthy else unhealthy)
                 (timestamp p) dbStatus "operational"
                 (mkInfo (uptime p) (memory p) count)),
     c').

(** [HealthServices.isHealthy] *)
Definition isHealthy (p : Process) : Async Collection bool :=
  try_catch
    (const health <- await checkHealth p ;;
     ret (bool_decide (h_status health = healthy)))
    (fun _ => ret false).

(** The two registered handlers. *)
Inductive Handler :=
  | HealthCheck    (* router.get('/') *)
  | HealthSimple.  (* router.get('/simple') *)

Definition router : Router Handler :=
  [ (GET, Root, HealthCheck);
    (GET, Literal "simple", HealthSimple) ].

(** What a health response carries in [data]. *)
Inductive Payload :=
  | FullReport (r : Report)
  | SimpleReport (status message time : string).

Record Response := mkResponse {
  statusCode : nat;
  success : bool;
  data : Payload
}.

(** A handler sends a response or hands an error to [next]. *)
Definition run (h : Handler) (p : Process)
  : Collection -> (Response + Error) * Collection :=
  fun c =>
    match h with
    | HealthCheck =>
        match checkHealth p c with
        | (Resolved health, c') =>
            let ok := bool_decide (h_status health = healthy) in
            (inl (mkResponse (if ok then 200 else 503) ok
                             (FullReport health)), c')
        | (Rejected e, c') => (inr e, c')
        end
    | HealthSimple =>
        (inl (mkResponse 200 true
                (SimpleReport "healthy" "API is running" (timestamp p))), c)
    end.

(** The response to a request that goes to [healthRoutes]: that of the
    matching handler, with an error handed to [next] answered by the
    global error handler, and a request no route matches falling through
    to the [*] layer and the 404 handler. *)
Definition handle (p : Process) (production : bool) (req : Request)
  (c : Collection) : option ((Response + Express.Response) * Collection) :=
  match App.dispatch (method req) (path req) with
  | App.ToHealth rest =>
      match route router (method req) rest with
      | Some (h, _) =>
          match run h p c with
          | (inl r, c') => Some (inl r, c')
          | (inr e, c') => Some (inr (App.errorHandler production e), c')
          end
      | None =>
          match App.fallthrough (path req) with
          | App.ToError e => Some (inr (App.errorHandler production e), c)
          | _ => Some (inr App.notFound, c)
          end
      end
  | _ => None
  end.

End with_process.

Arguments timestamp {Uptime MemoryUsage} _.
Arguments uptime {Uptime MemoryUsage} _.
Arguments memory {Uptime MemoryUsage} _.
Arguments readyState {Uptime MemoryUsage} _.
Arguments tasksCount {Uptime MemoryUsage} _.
Arguments h_status {Uptime MemoryUsage} _.
Arguments database {Uptime MemoryUsage} _.
Arguments info {Uptime MemoryUsage} _.
Arguments statusCode {Uptime MemoryUsage} _.
Arguments success {Uptime MemoryUsage} _.
Arguments data {Uptime MemoryUsage} _.
Arguments checkHealth {Uptime MemoryUsage} _ _.
Arguments isHealthy {Uptime MemoryUsage} _ _.
Arguments run {Uptime MemoryUsage} _ _ _.
Arguments handle {Uptime MemoryUsage} _ _ _ _.

End Health.

(** ** The frontend: the remaining bindings, hooks and components *)

Module Frontend.
Import Js Types Client.

(** *** [lib/api.ts] *)

Definition updateTask (id : string) (input : UpdateTaskInput)
  : Promise Task :=
  Rejected (new_Error
    "updateTask not implemented yet - you need to implement this!").

Definition deleteTask (id : string) : Promise unit :=
  Rejected (new_Error
    "deleteTask not implemented yet - you need to implement this!").

Definition getTaskById (id : string) : Promise Task :=
  Rejected (new_Error
    "getTaskById not implemented yet - you need to implement this!").

(** A statistics entry as it arrives over the wire. *)
Definition stats_of_wire (s : Types.TaskStats) : Client.TaskStats :=
  Client.mkStats (Types.s_status s) (Types.s_count s).

(** [getTaskStats], given the envelope the request resolved to:
    [response.data.data || []]. *)
Definition getTaskStats (envelope : Express.ApiResponse)
  : list Client.TaskStats :=
  match Express.data envelope with
  | Some (Express.StatsList l) => stats_of_wire <$> l
  | _ => []
  end.

(** *** [hooks/useTasks.ts] *)

Definition useUpdateTask
  : MutationOptions (string * UpdateTaskInput) Task unit :=
  {| mutationFn := fun v => updateTask v.1 v.2;
     onMutate := None;
     onSuccess := Some (fun _ _ => invalidateQueries queryKeys.tasksList);
     onError := None;
     onSettled := None |}.

Definition useDeleteTask : MutationOptions string unit unit :=
  {| mutationFn := deleteTask;
     onMutate := None;
     onSuccess := Some (fun _ _ => invalidateQueries queryKeys.tasksList);
     onError := None;
     onSettled := None |}.

(** *** [components/TaskStats.tsx] *)

(** [stats.find(s => s.status === st)?.count || 0] *)
Definition count_of (st : string) (stats : list Client.TaskStats) : nat :=
  match List.find (fun s => String.eqb (Client.s_status s) st) stats with
  | Some s => Client.s_count s
  | None => 0
  end.

Definition openCount (stats : list Client.TaskStats) : nat :=
  count_of "open" stats.
Definition doneCount (stats : list Client.TaskStats) : nat :=
  count_of "done" stats.
Definition totalCount (stats : list Client.TaskStats) : nat :=
  openCount stats + doneCount stats.

(** Whether the component renders anything: not while the statistics
    are missing, and not when the total is zero. *)
Definition statsVisible (stats : option (list Client.TaskStats)) : bool :=
  match stats with
  | None => false
  | Some l => negb (Nat.eqb (totalCount l) 0)
  end.

(** *** [components/TaskItem.tsx] *)

Record ItemState := mkItem {
  isEditing : bool;
  editTitle : string
}.

Record Notification := mkNote {
  n_title : string;
  n_message : string;
  n_color : string
}.

(** What a handler leaves behind: the component state, the notifications
    shown, and the update mutation it sent, if any. *)
Record Effect := mkEffect {
  e_state : ItemState;
  e_shown : list Notification;
  e_sent : option (string * UpdateTaskInput)
}.

Definition other_status (st : string) : string :=
  if String.eqb st "open" then "done" else "open".

Definition not_implemented_note : Notification :=
  mkNote "Not Implemented Yet"
    "You need to implement updateTask in api.ts and add optimistic updates!"
    "orange".

Section handlers.

(** [updateTaskMutation.mutateAsync] *)
Variable mutateAsync : string * UpdateTaskInput -> Promise Task.

(** [handleToggleStatus] *)
Definition handleToggleStatus (task : Task) (st : ItemState) : Effect :=
  let v := (Client.id task,
            mkUpdate None (Some (other_status (Client.status task)))) in
  match mutateAsync v with
  | Resolved _ =>
      mkEffect st
        [mkNote "Success"
           ("Task marked as " ++ other_status (Client.status task)) "green"]
        (Some v)
  | Rejected _ => mkEffect st [not_implemented_note] (Some v)
  end.

(** [handleSaveEdit] *)
Definition handleSaveEdit (task : Task) (st : ItemState) : Effect :=
  let trimmedTitle := trim (editTitle st) in
  if String.eqb trimmedTitle EmptyString then
    mkEffect st [mkNote "Error" "Title cannot be empty" "red"] None
  else if String.eqb trimmedTitle (Client.title task) then
    mkEffect (mkItem false (editTitle st)) [] None
  else
    let v := (Client.id task, mkUpdate (Some trimmedTitle) None) in
    match mutateAsync v with
    | Resolved _ =>
        mkEffect (mkItem false (editTitle st))
          [mkNote "Success" "Task updated successfully" "green"] (Some v)
    | Rejected _ =>
        mkEffect (mkItem false (Client.title task))
          [not_implemented_note] (Some v)
    end.

(** [handleCancelEdit] *)
Definition handleCancelEdit (task : Task) (st : ItemState) : Effect :=
  mkEffect (mkItem false (Client.title task)) [] None.

End handlers.

End Frontend.

(** * Properties *)

(** ** The runtime helpers *)

Module JsFacts.
Import Js.

Example trim_buy_milk : trim "  Buy milk  " = "Buy milk".
Proof. reflexivity. Qed.

Lemma trimStart_no_leading_ws (s : string) :
  match trimStart s with
  | EmptyString => True
  | String c _ => is_ws c = false
  end.
Proof.
  induction s as [|c r IH]; simpl; [done|].
  destruct (is_ws c) eqn:Hc; [exact IH | exact Hc].
Qed.

End JsFacts.

(** ** The data layer *)

Module TaskDataFacts.
Import Js Types Database.

#[local] Instance newest_first_total : Total newest_first.
Proof. intros a b. unfold newest_first. lia. Qed.

#[local] Instance newest_first_trans : Transitive newest_first.
Proof. intros a b c. unfold newest_first. lia. Qed.

Lemma all_docs_length (c : Collection) : List.length (all_docs c) = size c.
Proof. unfold all_docs. by rewrite length_fmap, length_map_to_list. Qed.

Lemma elem_of_all_docs (c : Collection) (t : ITask) :
  t ∈ all_docs c <->
  exists d, c !! _id t = Some d /\ t = toITask (_id t) d.
Proof.
  unfold all_docs. rewrite list_elem_of_fmap. split.
  - intros [[k d] [-> Hin]]. apply elem_of_map_to_list in Hin.
    simpl. eauto.
  - intros [d [Hd Ht]]. exists (_id t, d). split; [done|].
    by apply elem_of_map_to_list.
Qed.

Section with_engine.
Variable ObjectId_isValid : string -> bool.

Lemma validateObjectId_ok (id : string) (c : Collection) :
  ObjectId_isValid id = true ->
  TaskData.validateObjectId ObjectId_isValid id c = (Resolved tt, c).
Proof. intros H. unfold TaskData.validateObjectId. by rewrite H. Qed.

Lemma validateObjectId_throws (id : string) (c : Collection) :
  ObjectId_isValid id = false ->
  TaskData.validateObjectId ObjectId_isValid id c
  = (Rejected (new_Error "Invalid task ID format"), c).
Proof. intros H. unfold TaskData.validateObjectId. by rewrite H. Qed.

(** C5: for an id the storage driver does not accept as well-formed,
    [findById] fails with the invalid-id error and leaves the collection
    as it was; for a well-formed id with no record, under its spelling or
    under the hex string of the ObjectId it denotes, it resolves to
    [null], which is a different result. *)
Theorem findById_invalid_id_distinct_from_not_found
  (id : string) (c : Collection) :
  ObjectId_isValid id = false ->
  TaskData.findById ObjectId_isValid id c
    = (Rejected (new_Error "Invalid task ID format"), c)
  /\ (forall id' c', ObjectId_isValid id' = true ->
        c' !! id' = None -> c' !! ObjectId_hex id' = None ->
        TaskData.findById ObjectId_isValid id' c' = (Resolved None, c')
        /\ TaskData.findById ObjectId_isValid id' c'
           <> TaskData.findById ObjectId_isValid id c).
Proof.
  intros Hbad.
  assert (Hthrow : TaskData.findById ObjectId_isValid id c
            = (Rejected (new_Error "Invalid task ID format"), c)).
  { unfold TaskData.findById, bind.
    by rewrite validateObjectId_throws. }
  split; [exact Hthrow|].
  intros id' c' Hok Hnone Hcast.
  assert (Hnull : TaskData.findById ObjectId_isValid id' c'
                  = (Resolved None, c')).
  { unfold TaskData.findById, bind.
    rewrite validateObjectId_ok by done.
    unfold Database.findById. by rewrite Hnone. }
  split; [exact Hnull|]. rewrite Hnull, Hthrow. congruence.
Qed.

End with_engine.

(** C5 at the id of the malformed-id scenario, with the 24-hex-digit
    format of [TaskParamsSchema] as the driver's notion of validity. *)
Lemma findById_invalid_id_witness :
  TaskParamsSchema "not-an-id" = false
  /\ TaskData.findById TaskParamsSchema "not-an-id" (seed 0)
     = (Rejected (new_Error "Invalid task ID format"), seed 0)
  /\ TaskData.findById TaskParamsSchema "507f1f77bcf86cd799439011" (seed 0)
     = (Resolved None, seed 0).
Proof.
  assert (Hbad : TaskParamsSchema "not-an-id" = false) by reflexivity.
  destruct (findById_invalid_id_distinct_from_not_found
              TaskParamsSchema "not-an-id" (seed 0) Hbad) as [Hthrow Hnull].
  split; [exact Hbad|]. split; [exact Hthrow|].
  apply (Hnull "507f1f77bcf86cd799439011" (seed 0)).
  - reflexivity.
  - vm_compute. reflexivity.
  - vm_compute. reflexivity.
Defined.

(** C7: [findAll] resolves, for every collection, to all its documents
    ordered by [createdAt], newest first, and leaves the collection as it
    was; on the empty collection it resolves to the empty list. *)
Theorem findAll_newest_first (c : Collection) :
  exists l,
    TaskData.findAll c = (Resolved l, c)
    /\ StronglySorted newest_first l
    /\ l ≡ₚ all_docs c
    /\ (forall t, t ∈ l <->
          exists d, c !! _id t = Some d /\ t = toITask (_id t) d)
    /\ TaskData.findAll (∅ : Collection) = (Resolved [], ∅).
Proof.
  exists (merge_sort newest_first (all_docs c)).
  split; [reflexivity|].
  split; [apply StronglySorted_merge_sort; apply _|].
  split; [apply merge_sort_Permutation|].
  split.
  - intros t. rewrite merge_sort_Permutation. apply elem_of_all_docs.
  - unfold TaskData.findAll, find_sorted, all_docs.
    by rewrite map_to_list_empty.
Qed.

(** *** Statistics *)

Lemma bump_total (k : string) (acc : list TaskStats) :
  sum_list_with s_count (bump k acc) = S (sum_list_with s_count acc).
Proof.
  induction acc as [|g r IH]; simpl; [done|].
  case_decide; simpl; [done|]. rewrite IH. lia.
Qed.

Lemma foldl_bump_total (l : list ITask) (acc : list TaskStats) :
  sum_list_with s_count (foldl (fun acc t => bump (status t) acc) acc l)
  = sum_list_with s_count acc + List.length l.
Proof.
  revert acc. induction l as [|t l IH]; intros acc; simpl; [lia|].
  rewrite IH, bump_total. lia.
Qed.

(** The counts reported for a status add up to the number of documents
    with that status. *)
Lemma bump_group (k k' : string) (acc : list TaskStats) :
  sum_list_with (fun g => if decide (s_status g = k') then s_count g else 0)
                (bump k acc)
  = (if decide (k = k') then 1 else 0)
    + sum_list_with (fun g => if decide (s_status g = k') then s_count g else 0)
                    acc.
Proof.
  induction acc as [|g r IH]; simpl.
  - repeat case_decide; lia.
  - destruct (decide (s_status g = k)) as [<-|Hne]; simpl.
    + repeat case_decide; lia.
    + rewrite IH. lia.
Qed.

Lemma foldl_bump_group (k' : string) (l : list ITask) (acc : list TaskStats) :
  sum_list_with (fun g => if decide (s_status g = k') then s_count g else 0)
                (foldl (fun acc t => bump (status t) acc) acc l)
  = sum_list_with (fun g => if decide (s_status g = k') then s_count g else 0)
                  acc
    + List.length (filter (fun t => status t = k') l).
Proof.
  revert acc. induction l as [|t l IH]; intros acc; simpl; [lia|].
  rewrite IH, bump_group, filter_cons.
  case_decide; simpl; lia.
Qed.

(** C8: after any sequence of create, update and delete operations, from
    any collection, [getStats] and [count] both resolve, and the
    per-status counts add up to the total count. *)
Theorem getStats_counts_sum_to_count
  (ObjectId_isValid : string -> bool) (ops : list TaskData.Op)
  (c0 : Collection) :
  exists stats n,
    TaskData.getStats (TaskData.run_ops ObjectId_isValid ops c0)
      = (Resolved stats, TaskData.run_ops ObjectId_isValid ops c0)
    /\ TaskData.count (TaskData.run_ops ObjectId_isValid ops c0)
      = (Resolved n, TaskData.run_ops ObjectId_isValid ops c0)
    /\ sum_list_with s_count stats = n.
Proof.
  eexists _, _. split; [reflexivity|]. split; [reflexivity|].
  rewrite foldl_bump_total. simpl. apply all_docs_length.
Qed.

(** *** Validation *)

Lemma String_eqb_empty (v : string) :
  String.eqb v EmptyString = true <-> String.length v = 0.
Proof. destruct v; simpl; split; congruence. Qed.

Lemma title_valid_iff (v : string) :
  doValidate title_validators v = None
  <-> 1 <= String.length v /\ String.length v <= 200.
Proof.
  unfold title_validators, doValidate.
  destruct (String.eqb_spec v EmptyString) as [->|Hne]; cbn [negb].
  - simpl. split; [done | lia].
  - assert (String.length v <> 0) as Hlen.
    { intros H0. by apply String_eqb_empty, String.eqb_eq in H0. }
    destruct (Nat.leb_spec 1 (String.length v));
      destruct (Nat.leb_spec (String.length v) 200);
      split; (done || lia).
Qed.

Lemma title_invalid_text (v : string) :
  String.length v = 0 \/ 200 < String.length v ->
  doValidate title_validators v
  = Some (if Nat.eqb (String.length v) 0 then "Title is required"
          else "Title cannot exceed 200 characters").
Proof.
  intros H. unfold title_validators, doValidate.
  destruct (String.eqb_spec v EmptyString) as [->|Hne]; cbn [negb]; [done|].
  assert (String.length v <> 0) as Hlen.
  { intros H0. by apply String_eqb_empty, String.eqb_eq in H0. }
  destruct (Nat.eqb_spec (String.length v) 0); [done|].
  destruct (Nat.leb_spec 1 (String.length v)); [|lia].
  destruct (Nat.leb_spec (String.length v) 200); [lia|done].
Qed.

Lemma status_valid_iff (st : string) :
  doValidate status_validators st = None <-> st = "open" \/ st = "done".
Proof.
  unfold status_validators, TaskStatus; simpl.
  case_bool_decide as H.
  - split; [|done]. intros _.
    apply elem_of_cons in H as [->|H]; [by left|].
    apply elem_of_cons in H as [->|H]; [by right|].
    by apply elem_of_nil in H.
  - split; [done|]. intros Hst. exfalso. apply H.
    rewrite !elem_of_cons. tauto.
Qed.

Lemma validate_update_None_iff (u : UpdateTaskInput) :
  validate_update u = None
  <-> (forall t, u_title u = Some t ->
         1 <= String.length (trim t) /\ String.length (trim t) <= 200)
      /\ (forall st, u_status u = Some st -> st = "open" \/ st = "done").
Proof.
  unfold validate_update, cast_title.
  destruct u as [[t|] [st|]]; cbn [u_title u_status].
  - destruct (doValidate title_validators (trim t)) eqn:Ht.
    + split; [done|]. intros [H _]. specialize (H t eq_refl).
      apply title_valid_iff in H. congruence.
    + apply title_valid_iff in Ht. rewrite status_valid_iff.
      split.
      * intros Hs. split; intros ? [= <-]; done.
      * intros [_ H]. by apply H.
  - destruct (doValidate title_validators (trim t)) eqn:Ht.
    + split; [done|]. intros [H _]. specialize (H t eq_refl).
      apply title_valid_iff in H. congruence.
    + apply title_valid_iff in Ht. split; [|done].
      intros _. split; [intros ? [= <-]; done | done].
  - rewrite status_valid_iff. split.
    + intros Hs. split; [done|]. by intros ? [= <-].
    + intros [_ H]. by apply H.
  - split; [|done]. intros _. split; done.
Qed.

Section updates.
Variable ObjectId_isValid : string -> bool.

(** C6: on an existing record, [updateById] first validates the provided
    title (after the schema's trim) and status.  When they are valid it
    resolves to the updated task: the provided fields are written, the
    title trimmed, the other fields and every other record keep their
    value, and [updatedAt] is the time of the write.  When one is invalid
    it fails with a [ValidationError] and writes nothing; the error's
    message names the failing path and the text of its validator when the
    update has only that field.  The update is valid exactly when the
    trimmed title, if any, has 1 to 200 characters and the status, if any,
    is [open] or [done]. *)
Theorem updateById_applies_provided_fields
  (now : Z) (id : string) (u : UpdateTaskInput) (c : Collection) (d : Doc) :
  ObjectId_isValid id = true ->
  c !! id = Some d ->
  match validate_update u with
  | None =>
      exists d',
        TaskData.updateById ObjectId_isValid now id u c
          = (Resolved (Some (toITask id d')), <[id := d']> c)
        /\ d_title d' = match u_title u with
                        | Some t => trim t
                        | None => d_title d
                        end
        /\ d_status d' = match u_status u with
                         | Some st => st
                         | None => d_status d
                         end
        /\ d_createdAt d' = d_createdAt d
        /\ d_updatedAt d' = now
        /\ (forall id', id' <> id -> (<[id := d']> c) !! id' = c !! id')
  | Some text =>
      exists e,
        TaskData.updateById ObjectId_isValid now id u c = (Rejected e, c)
        /\ name e = "ValidationError"
        /\ (u_status u = None ->
            message e = "Validation failed: title: " ++ text)
        /\ (u_title u = None ->
            message e = "Validation failed: status: " ++ text)
  end
  /\ (validate_update u = None
      <-> (forall t, u_title u = Some t ->
             1 <= String.length (trim t) /\ String.length (trim t) <= 200)
          /\ (forall st, u_status u = Some st ->
                st = "open" \/ st = "done")).
Proof.
  intros Hok Hd. split; [|apply validate_update_None_iff].
  unfold TaskData.updateById, bind.
  rewrite validateObjectId_ok by done.
  unfold findByIdAndUpdate.
  destruct (validate_update u) as [text|] eqn:Hv.
  { eexists. split; [reflexivity|]. split; [reflexivity|].
    unfold validate_update in Hv. unfold update_errors, path_errors.
    split; intros Hnone; rewrite Hnone in *; cbn [message ValidationError].
    - destruct (u_title u) as [v|]; [|done].
      destruct (doValidate title_validators (cast_title v));
        [by injection Hv as -> | done].
    - destruct (u_status u) as [st|]; [|done]. by rewrite Hv. }
  rewrite Hd. exists (apply_update now u d).
  split; [done|].
  unfold apply_update, cast_title; cbn [d_title d_status d_createdAt d_updatedAt].
  split; [by destruct (u_title u)|].
  split; [by destruct (u_status u)|].
  split; [reflexivity|]. split; [reflexivity|].
  intros id' Hne. by rewrite lookup_insert_ne.
Qed.

(** *** The status invariant *)

Lemma exec_status_ok (op : TaskData.Op) (c : Collection) :
  map_Forall (fun _ d => d_status d = "open" \/ d_status d = "done") c ->
  map_Forall (fun _ d => d_status d = "open" \/ d_status d = "done")
             (TaskData.exec ObjectId_isValid op c).
Proof.
  intros Hc. destruct op as [now oid data | now id u | id]; simpl.
  - unfold TaskData.create, save.
    destruct (doValidate title_validators _); [done|].
    destruct (doValidate status_validators _); [done|].
    destruct (c !! oid) eqn:Ho; [done|]. simpl.
    apply map_Forall_insert_2; [by left | done].
  - unfold TaskData.updateById, TaskData.validateObjectId, bind.
    destruct (ObjectId_isValid id); simpl; [|done].
    unfold findByIdAndUpdate.
    destruct (validate_update u) eqn:Hv; [done|].
    destruct (c !! id) as [d|] eqn:Hd; [|done]. simpl.
    apply map_Forall_insert_2; [|done].
    unfold apply_update; simpl.
    apply validate_update_None_iff in Hv as [_ Hst].
    destruct (u_status u) as [st|]; simpl; [by apply Hst|].
    by apply (Hc id d).
  - unfold TaskData.deleteById, TaskData.validateObjectId, bind.
    destruct (ObjectId_isValid id); simpl; [|done].
    by apply map_Forall_delete.
Qed.

(** C9: if every task of a collection has status [open] or [done], so
    has every task after any sequence of create, update and delete
    operations; and a create, which takes no status, resolves for a valid
    title and a fresh key to a stored task with status [open] (and
    whenever it resolves, the task has status [open]). *)
Theorem persisted_status_is_open_or_done
  (ops : list TaskData.Op) (c0 : Collection) :
  map_Forall (fun _ d => d_status d = "open" \/ d_status d = "done") c0 ->
  map_Forall (fun _ d => d_status d = "open" \/ d_status d = "done")
             (TaskData.run_ops ObjectId_isValid ops c0)
  /\ (forall now oid data c,
        1 <= String.length (trim (c_title data)) ->
        String.length (trim (c_title data)) <= 200 ->
        c !! oid = None ->
        exists t c',
          TaskData.create now oid data c = (Resolved t, c')
          /\ status t = "open"
          /\ c' !! oid = Some (mkDoc (trim (c_title data)) "open" now now))
  /\ (forall now oid data c t c',
        TaskData.create now oid data c = (Resolved t, c') ->
        status t = "open").
Proof.
  intros H0. split; [|split].
  - revert c0 H0. induction ops as [|op ops IH]; intros c0 H0; [done|].
    simpl. apply IH. by apply exec_status_ok.
  - intros now oid data c Hlo Hhi Hfresh.
    unfold TaskData.create, save, cast_title.
    assert (doValidate title_validators (trim (c_title data)) = None) as ->.
    { by apply title_valid_iff. }
    assert (doValidate status_validators status_default = None) as ->.
    { apply status_valid_iff. by left. }
    rewrite Hfresh. eexists _, _. split; [reflexivity|].
    split; [done|]. by rewrite lookup_insert_eq.
  - intros now oid data c t c'. unfold TaskData.create, save.
    destruct (doValidate title_validators _); [done|].
    destruct (doValidate status_validators _); [done|].
    destruct (c !! oid); [done|]. by intros [= <- _].
Qed.

End updates.

(** C6 on the second seeded task: a title with surrounding blanks, no
    status. *)
Lemma updateById_applies_provided_fields_witness :
  TaskParamsSchema "650000000000000000000002" = true
  /\ seed 0 !! "650000000000000000000002"
     = Some (mkDoc "Review React Query documentation" "done"
                   (-86400000) (-86400000))
  /\ exists d',
       TaskData.updateById TaskParamsSchema 7 "650000000000000000000002"
         (mkUpdate (Some "  Read the docs ") None) (seed 0)
       = (Resolved (Some (toITask "650000000000000000000002" d')),
          <["650000000000000000000002" := d']> (seed 0))
       /\ d_title d' = "Read the docs"
       /\ d_status d' = "done"
       /\ d_createdAt d' = (-86400000)%Z
       /\ d_updatedAt d' = 7%Z.
Proof.
  assert (H1 : TaskParamsSchema "650000000000000000000002" = true)
    by reflexivity.
  assert (H2 : seed 0 !! "650000000000000000000002"
               = Some (mkDoc "Review React Query documentation" "done"
                             (-86400000) (-86400000)))
    by (vm_compute; reflexivity).
  split; [exact H1|]. split; [exact H2|].
  destruct (updateById_applies_provided_fields TaskParamsSchema 7
              "650000000000000000000002"
              (mkUpdate (Some "  Read the docs ") None) (seed 0) _ H1 H2)
    as [H _].
  change (validate_update (mkUpdate (Some "  Read the docs ") None))
    with (@None string) in H.
  destruct H as (d' & Hr & Ht & Hs & Hc & Hu & _).
  exists d'. split; [exact Hr|]. split; [exact Ht|]. split; [exact Hs|].
  split; [exact Hc | exact Hu].
Defined.

(** C9 on a run from the empty collection. *)
Lemma persisted_status_is_open_or_done_witness :
  map_Forall (fun _ d => d_status d = "open" \/ d_status d = "done")
             (∅ : Collection)
  /\ map_Forall (fun _ d => d_status d = "open" \/ d_status d = "done")
       (TaskData.run_ops TaskParamsSchema
          [ TaskData.OpCreate 1 "650000000000000000000009"
              (mkCreate " Buy milk ");
            TaskData.OpUpdate 2 "650000000000000000000009"
              (mkUpdate None (Some "done"));
            TaskData.OpUpdate 3 "650000000000000000000009"
              (mkUpdate None (Some "archived"));
            TaskData.OpDelete "650000000000000000000001" ]
          ∅).
Proof.
  split; [apply map_Forall_empty|].
  apply (persisted_status_is_open_or_done TaskParamsSchema _ ∅).
  apply map_Forall_empty.
Defined.

Lemma seed_status_ok (now : Z) :
  map_Forall (fun _ d => d_status d = "open" \/ d_status d = "done")
             (seed now).
Proof.
  unfold seed. repeat apply map_Forall_insert_2; simpl; auto.
  apply map_Forall_empty.
Qed.

Example update_rejects_unknown_status :
  TaskData.updateById TaskParamsSchema 3 "650000000000000000000001"
    (mkUpdate None (Some "archived")) (seed 0)
  = (Rejected
       (ValidationError
          "Validation failed: status: Status must be either open or done"),
     seed 0).
Proof. reflexivity. Qed.

Example update_rejects_blank_title :
  TaskData.updateById TaskParamsSchema 3 "650000000000000000000001"
    (mkUpdate (Some "   ") (Some "done")) (seed 0)
  = (Rejected
       (ValidationError "Validation failed: title: Title is required"),
     seed 0).
Proof. reflexivity. Qed.

End TaskDataFacts.

(** ** The service layer *)

Module TaskServicesFacts.
Import Js Types Database.

(** C3, as stated, fails on a title that is valid after trimming: the
    service rejects and nothing is created. *)
Lemma createTask_valid_title_rejected :
  trim "  Buy milk  " = "Buy milk"
  /\ TaskServices.createTask (mkCreate "  Buy milk  ") (∅ : Collection)
     = (Rejected (new_Error
          "Not implemented yet - you need to implement task creation in services!"),
        ∅)
  /\ ~ (exists t c',
          TaskServices.createTask (mkCreate "  Buy milk  ") (∅ : Collection)
          = (Resolved t, c')).
Proof.
  split; [reflexivity|]. split; [reflexivity|].
  intros (t & c' & H). discriminate H.
Qed.

(** C3, amended: for every input and every collection, [createTask]
    fails with the not-implemented error, whatever the title, and the
    collection is left as it was: no record is persisted and the store's
    [create] is not reached. *)
Theorem createTask_not_implemented
  (data : CreateTaskInput) (c : Collection) :
  TaskServices.createTask data c
  = (Rejected (new_Error
       "Not implemented yet - you need to implement task creation in services!"),
     c).
Proof. reflexivity. Qed.

End TaskServicesFacts.

(** ** Routing and the HTTP boundary *)

Module RoutingFacts.
Import Js Types Database Express.

Lemma strip_trailing_slash_id (s : string) :
  has_slash s = false -> strip_trailing_slash s = s.
Proof.
  induction s as [|c r IH]; [done|].
  cbn [has_slash]. intros H. apply orb_false_iff in H as [Hc Hr].
  cbn [strip_trailing_slash]. rewrite Hc, (IH Hr). by destruct r.
Qed.

Lemma lower_length (s : string) : String.length (lower s) = String.length s.
Proof. induction s as [|c r IH]; simpl; congruence. Qed.

Lemma route_cons {H} (m' : Method) (p : Pattern) (h : H) (r : Router H)
  (m : Method) (path : string) :
  route ((m', p, h) :: r) m path
  = if decide (m' = m) then
      match match_path p path with
      | Some params => Some (h, params)
      | None => route r m path
      end
    else route r m path.
Proof. reflexivity. Qed.

Lemma mounted_health_below_tasks (rest : string) :
  mounted "/api/health" ("/api/tasks/" ++ rest) = None.
Proof. reflexivity. Qed.

Lemma mounted_tasks_below_tasks (rest : string) :
  rest <> EmptyString -> has_slash rest = false ->
  mounted "/api/tasks" ("/api/tasks/" ++ rest) = Some ("/" ++ rest).
Proof.
  intros Hne Hslash. destruct rest as [|a r]; [done|].
  cbn [has_slash] in Hslash. apply orb_false_iff in Hslash as [Ha _].
  change (mounted "/api/tasks" ("/api/tasks/" ++ String a r))
    with (if is_slash a then Some (String a r)
          else Some (String "/" (String a r))).
  by rewrite Ha.
Qed.

Lemma resolve_cons {H} (m' : Method) (p : Pattern) (h : H) (r : Router H)
  (m : Method) (path : string) :
  resolve ((m', p, h) :: r) m path
  = match match_path p path with
    | None => resolve r m path
    | Some raw =>
        match decode_params raw with
        | DecodeFails e => RouteError e
        | Decodes params =>
            if decide (m' = m) then RouteTo h params else resolve r m path
        | DecodesWide =>
            if decide (m' = m) then RouteToWide h else resolve r m path
        end
    end.
Proof. reflexivity. Qed.

(** *** Paths without a percent sign decode to themselves *)

Lemma decode_no_percent (s : string) :
  has_percent s = false -> decodeURIComponent s = Narrow s.
Proof.
  unfold decodeURIComponent. induction s as [|c r IH]; [done|].
  cbn [has_percent tokens]. intros H. apply orb_false_iff in H as [Hc Hr].
  rewrite Hc. cbn [decode_tokens]. by rewrite (IH Hr).
Qed.

Lemma strip_trailing_slash_no_percent (s : string) :
  has_percent s = false -> has_percent (strip_trailing_slash s) = false.
Proof.
  induction s as [|c r IH]; [done|].
  cbn [has_percent]. intros H. apply orb_false_iff in H as [Hc Hr].
  cbn [strip_trailing_slash]. destruct r as [|c' r'].
  - destruct (is_slash c); [done|]. cbn [has_percent]. by rewrite Hc.
  - cbn [has_percent]. rewrite Hc. cbn [orb]. by apply IH.
Qed.

Lemma match_path_no_percent (p : Pattern) (path : string)
  (raw : list (string * string)) :
  has_percent path = false -> match_path p path = Some raw ->
  decode_params raw = Decodes raw.
Proof.
  intros Hp. destruct p as [| seg | name]; cbn [match_path].
  - destruct (_ || _); [|done]. by intros [= <-].
  - destruct (String.eqb _ _); [|done]. by intros [= <-].
  - destruct path as [|c rest]; [done|].
    cbn [has_percent] in Hp. apply orb_false_iff in Hp as [_ Hrest].
    destruct (_ && _); [|done]. intros [= <-].
    cbn [decode_params].
    by rewrite decode_no_percent
      by (by apply strip_trailing_slash_no_percent).
Qed.

(** Without a percent sign in the path, [resolve] is [route]. *)
Lemma resolve_no_percent {H} (r : Router H) (m : Method) (path : string) :
  has_percent path = false ->
  resolve r m path
  = match route r m path with
    | Some (h, params) => RouteTo h params
    | None => NoRoute
    end.
Proof.
  intros Hp. induction r as [|[[m' p] h] r IH]; [done|].
  rewrite resolve_cons, route_cons.
  destruct (match_path p path) as [raw|] eqn:Hm.
  - rewrite (match_path_no_percent p path raw Hp Hm).
    by destruct (decide (m' = m)).
  - rewrite IH. by destruct (decide (m' = m)).
Qed.

Lemma strip_prefix_no_percent (pre s rest : string) :
  strip_prefix pre s = Some rest -> has_percent s = false ->
  has_percent rest = false.
Proof.
  revert s. induction pre as [|a pre IH]; intros s; cbn [strip_prefix].
  - by intros [= <-].
  - destruct s as [|b s']; [done|].
    destruct (Ascii.eqb _ _); [|done].
    intros Hs. cbn [has_percent]. intros H.
    apply orb_false_iff in H as [_ H]. by apply (IH s').
Qed.

Lemma mounted_no_percent (mount path rest : string) :
  mounted mount path = Some rest -> has_percent path = false ->
  has_percent rest = false.
Proof.
  unfold mounted. destruct (strip_prefix mount path) as [t|] eqn:Ht; [|done].
  intros Hm Hp. pose proof (strip_prefix_no_percent _ _ _ Ht Hp) as Hrest.
  destruct t as [|c r]; [by injection Hm as <-|].
  destruct (is_slash c); [|done].
  destruct r as [|c' r']; [by injection Hm as <-|].
  cbn [has_percent] in Hrest. apply orb_false_iff in Hrest as [Hc Hr].
  destruct (is_slash c'); injection Hm as <-; [done|].
  cbn [has_percent]. by rewrite Hc.
Qed.

Section by_id_segment.
Variable id : string.
Hypothesis id_not_empty : id <> EmptyString.
Hypothesis id_no_slash : has_slash id = false.
Hypothesis id_not_stats : lower id <> "stats".

Lemma strip_segment : strip_trailing_slash (String "/" id) = String "/" id.
Proof.
  destruct id as [|a r] eqn:E; [done|].
  change (strip_trailing_slash (String "/" (String a r)))
    with (String "/" (strip_trailing_slash (String a r))).
  by rewrite strip_trailing_slash_id.
Qed.

Lemma segment_not_stats : match_path (Literal "stats") (String "/" id) = None.
Proof.
  unfold match_path. rewrite strip_segment.
  destruct (String.eqb_spec (lower (String "/" id))
                            (lower (String "/" "stats"))) as [Heq|]; [|done].
  exfalso. apply id_not_stats.
  apply (f_equal (fun s => match s with
                           | String _ t => t
                           | EmptyString => s
                           end)) in Heq.
  exact Heq.
Qed.

Lemma segment_not_root : match_path Root (String "/" id) = None.
Proof.
  unfold match_path. destruct id as [|a r]; [done|]. reflexivity.
Qed.

Lemma segment_is_param (name : string) :
  match_path (Param name) (String "/" id) = Some [(name, id)].
Proof.
  unfold match_path. rewrite strip_trailing_slash_id by done.
  rewrite id_no_slash.
  destruct (String.eqb_spec id EmptyString); [done|]. reflexivity.
Qed.

Lemma route_get_by_id :
  route TaskRoutes.router GET (String "/" id)
  = Some (TaskRoutes.GetTaskById, [("id", id)]).
Proof.
  unfold TaskRoutes.router.
  rewrite route_cons, decide_True by done. rewrite segment_not_stats.
  rewrite route_cons, decide_True by done. rewrite segment_not_root.
  rewrite route_cons, decide_False by done.
  rewrite route_cons, decide_True by done. by rewrite segment_is_param.
Qed.

Lemma resolve_get_by_id :
  resolve TaskRoutes.router GET (String "/" id)
  = match decodeURIComponent id with
    | Malformed => RouteError (URIError id)
    | Wide => RouteToWide TaskRoutes.GetTaskById
    | Narrow s => RouteTo TaskRoutes.GetTaskById [("id", s)]
    end.
Proof.
  unfold TaskRoutes.router.
  rewrite resolve_cons, segment_not_stats.
  rewrite resolve_cons, segment_not_root.
  rewrite resolve_cons, segment_not_root.
  rewrite resolve_cons, segment_is_param. cbn [decode_params].
  destruct (decodeURIComponent id); by rewrite ?decide_True.
Qed.

(** Which requests reach the by-id route: a GET below the mount point
    whose last segment is not empty, has no slash and is not [stats];
    the segment is decoded on the way. *)
Lemma dispatch_get_by_id :
  App.dispatch GET ("/api/tasks/" ++ id)
  = match decodeURIComponent id with
    | Malformed => App.ToError (URIError id)
    | Wide => App.ToTaskWide TaskRoutes.GetTaskById
    | Narrow s => App.ToTask TaskRoutes.GetTaskById [("id", s)]
    end.
Proof.
  unfold App.dispatch.
  rewrite mounted_health_below_tasks.
  rewrite mounted_tasks_below_tasks by done.
  change ("/" ++ id) with (String "/" id).
  rewrite resolve_get_by_id. by destruct (decodeURIComponent id).
Qed.

End by_id_segment.

End RoutingFacts.

Module ApiFacts.
Import Js Types Database Express.

(** C1, as stated, fails on the create request of the end-to-end
    scenario: the answer is 501 without data, not 201 with the created
    task, and nothing is stored. *)
Lemma post_valid_title_is_not_201 :
  trim "  Buy milk  " = "Buy milk"
  /\ App.handle false
       (mkRequest POST "/api/tasks" [("title", JStr "  Buy milk  ")])
       (∅ : Collection)
     = Some (mkResponse 501
               (mkApi false None
                  (Some "Not implemented yet - you need to implement task creation!")
                  None),
             ∅)
  /\ ~ (exists r c',
          App.handle false
            (mkRequest POST "/api/tasks" [("title", JStr "  Buy milk  ")])
            (∅ : Collection) = Some (r, c')
          /\ statusCode r = 201).
Proof.
  split; [reflexivity|]. split; [reflexivity|].
  intros (r & c' & H & Hcode).
  injection H as <- _. discriminate Hcode.
Qed.

(** C1, amended: for every create request, whatever its body, and in
    every collection, POST /tasks answers with status 501 and an envelope
    with [success: false], a not-implemented message and no data; the
    collection is left as it was. *)
Theorem post_tasks_not_implemented
  (production : bool) (body : list (string * JsonValue)) (c : Collection) :
  App.handle production (mkRequest POST "/api/tasks" body) c
  = Some (mkResponse 501
            (mkApi false None
               (Some "Not implemented yet - you need to implement task creation!")
               None),
          c).
Proof. reflexivity. Qed.

(** C4, as stated, fails on the request of the malformed-id scenario:
    the answer has status 501, not 400. *)
Lemma get_malformed_id_is_not_400 :
  TaskParamsSchema "not-an-id" = false
  /\ App.handle false (mkRequest GET "/api/tasks/not-an-id" [])
       (∅ : Collection)
     = Some (mkResponse 501
               (mkApi false None
                  (Some "Not implemented yet - you need to implement get task by ID!")
                  None),
             ∅)
  /\ ~ (exists r c',
          App.handle false (mkRequest GET "/api/tasks/not-an-id" [])
            (∅ : Collection) = Some (r, c')
          /\ statusCode r = 400).
Proof.
  split; [reflexivity|]. split; [reflexivity|].
  intros (r & c' & H & Hcode).
  injection H as <- _. discriminate Hcode.
Qed.

(** C4, amended: every request GET /tasks/:id that reaches the by-id
    route (its id segment is not empty, has no slash and is not [stats]),
    whether the id is a well-formed identifier or not, is answered with an
    envelope with [success: false] and leaves the collection as it was.
    The status is 501 when the segment percent-decodes, the id not being
    examined further, and 500 when it holds a malformed percent escape,
    which Express fails to decode before the handler runs. *)
Theorem get_by_id_not_implemented
  (production : bool) (id : string) (body : list (string * JsonValue))
  (c : Collection) :
  id <> EmptyString ->
  has_slash id = false ->
  lower id <> "stats" ->
  (decodeURIComponent id <> Malformed ->
   App.handle production (mkRequest GET ("/api/tasks/" ++ id) body) c
   = Some (mkResponse 501
             (mkApi false None
                (Some "Not implemented yet - you need to implement get task by ID!")
                None),
           c))
  /\ (decodeURIComponent id = Malformed ->
      exists r,
        App.handle production (mkRequest GET ("/api/tasks/" ++ id) body) c
        = Some (r, c)
        /\ statusCode r = 500
        /\ success (json r) = false
        /\ data (json r) = None
        /\ (production = true ->
            error (json r) = Some "Internal server error")).
Proof.
  intros Hne Hslash Hstats. unfold App.handle. cbn [method path].
  rewrite RoutingFacts.dispatch_get_by_id by done.
  split.
  - intros Hd. by destruct (decodeURIComponent id).
  - intros ->. eexists. split; [reflexivity|].
    repeat (split; [reflexivity|]). by intros ->.
Qed.

(** C4, amended, at an id that is not well-formed. *)
Lemma get_by_id_not_implemented_witness :
  TaskParamsSchema "not-an-id" = false
  /\ App.handle true (mkRequest GET ("/api/tasks/" ++ "not-an-id") [])
       (seed 0)
     = Some (mkResponse 501
               (mkApi false None
                  (Some "Not implemented yet - you need to implement get task by ID!")
                  None),
             seed 0).
Proof.
  split; [reflexivity|].
  apply (get_by_id_not_implemented true "not-an-id" [] (seed 0)).
  - discriminate.
  - reflexivity.
  - discriminate.
  - vm_compute. discriminate.
Defined.

Example get_by_id_malformed_escape :
  App.handle false (mkRequest GET "/api/tasks/%zz" []) (∅ : Collection)
  = Some (mkResponse 500
            (mkApi false None (Some "Failed to decode param '%zz'") None),
          ∅).
Proof. reflexivity. Qed.

(** C10: GET /api/tasks/stats goes to the statistics handler, although
    the pattern of the by-id route accepts the path too; the handler
    answers 200 with the statistics of the collection and hands no error
    on, so the request never ends in the by-id handler nor in an
    invalid-id answer. *)
Theorem stats_route_before_by_id :
  App.dispatch GET "/api/tasks/stats" = App.ToTask TaskRoutes.GetStats []
  /\ match_path (Param "id") "/stats" = Some [("id", "stats")]
  /\ route TaskRoutes.router GET "/stats" = Some (TaskRoutes.GetStats, [])
  /\ (forall (production : bool) (body : list (string * JsonValue))
             (c : Collection),
        exists stats,
          TaskData.getStats c = (Resolved stats, c)
          /\ TaskRoutes.run TaskRoutes.GetStats
               (mkRequest GET "/api/tasks/stats" body) [] c
             = (Sent (mkResponse 200
                        (mkApi true (Some (StatsList stats)) None None)), c)
          /\ App.handle production
               (mkRequest GET "/api/tasks/stats" body) c
             = Some (mkResponse 200
                       (mkApi true (Some (StatsList stats)) None None), c)
          /\ App.handle production
               (mkRequest GET "/api/tasks/stats" body) c
             <> Some (App.errorHandler production
                        (new_Error "Invalid task ID format"), c)
          /\ App.handle production
               (mkRequest GET "/api/tasks/stats" body) c
             <> Some (App.errorHandler production
                        (mkError "CastError" None "Cast to ObjectId failed"),
                      c)).
Proof.
  split; [reflexivity|]. split; [reflexivity|]. split; [reflexivity|].
  intros production body c. eexists.
  split; [reflexivity|]. split; [reflexivity|].
  assert (Hh : App.handle production
                 (mkRequest GET "/api/tasks/stats" body) c
               = Some (mkResponse 200
                         (mkApi true
                            (Some (StatsList
                               (foldl (fun acc t => bump (status t) acc) []
                                      (all_docs c))))
                            None None), c)) by reflexivity.
  split; [exact Hh|]. rewrite Hh.
  split; destruct production; discriminate.
Qed.

End ApiFacts.

(** ** The client cache *)

Module ClientFacts.
Import Js Client.

Lemma getQueryData_invalidate (k key : list string) (c : QueryCache) :
  getQueryData key (invalidateQueries k c) = getQueryData key c.
Proof.
  unfold getQueryData, invalidateQueries. rewrite map_lookup_imap.
  destruct (c !! key) as [q|]; simpl; [|done].
  by destruct (is_prefix k key).
Qed.

(** C2, as stated, fails on a cache holding one task: right after the
    create is issued the cached list is still that one task, with no
    provisional task before it. *)
Lemma create_shows_no_provisional_task :
  let t1 := mkTask "650000000000000000000001" "Water the plants" "open"
                   "2025-09-15T10:30:00.000Z" "2025-09-15T10:30:00.000Z" in
  let c0 := setQueryData queryKeys.tasksList (Some (TasksData [t1])) ∅ in
  getQueryData queryKeys.tasksList c0 = Some (TasksData [t1])
  /\ getQueryData queryKeys.tasksList
       (issue useCreateTask (mkCreate "Buy milk") c0).2
     = Some (TasksData [t1])
  /\ ~ (exists p,
          getQueryData queryKeys.tasksList
            (issue useCreateTask (mkCreate "Buy milk") c0).2
          = Some (TasksData (p :: [t1]))).
Proof.
  intros t1 c0.
  assert (H : getQueryData queryKeys.tasksList c0 = Some (TasksData [t1])).
  { unfold getQueryData, c0, setQueryData. by rewrite lookup_insert_eq. }
  split; [exact H|]. split; [exact H|].
  intros [p Hp]. cbn [issue useCreateTask onMutate snd] in Hp.
  rewrite H in Hp. discriminate Hp.
Qed.

(** C2, amended: for every create mutation issued through the client
    cache, the cache right after issue is the cache before it, so a read
    shows the task list unchanged, without a provisional task; if the
    request fails, the cache is still the one before the mutation, and the
    request as the API binding implements it always fails; if it
    succeeds, every cached list still reads the same (the list query is
    only marked for a refetch). *)
Theorem create_leaves_cache_until_refetch
  (input : CreateTaskInput) (c : QueryCache) :
  (issue useCreateTask input c).2 = c
  /\ (forall key,
        getQueryData key (issue useCreateTask input c).2
        = getQueryData key c)
  /\ (forall ctx e,
        resolve useCreateTask input ctx (Rejected e)
                (issue useCreateTask input c).2 = c)
  /\ mutate useCreateTask input c
     = (Rejected (new_Error
          "createTask not implemented yet - you need to implement this!"), c)
  /\ (forall ctx t key,
        getQueryData key
          (resolve useCreateTask input ctx (Resolved t)
                   (issue useCreateTask input c).2)
        = getQueryData key c).
Proof.
  split; [reflexivity|]. split; [reflexivity|]. split; [reflexivity|].
  split; [reflexivity|].
  intros ctx t key. cbn [issue resolve useCreateTask onMutate onSuccess
                         onSettled snd].
  apply getQueryData_invalidate.
Qed.

Example success_marks_list_for_refetch :
  let t1 := mkTask "650000000000000000000001" "Water the plants" "open"
                   "2025-09-15T10:30:00.000Z" "2025-09-15T10:30:00.000Z" in
  let c0 := setQueryData queryKeys.tasksList (Some (TasksData [t1])) ∅ in
  q_invalidated <$>
    (resolve useCreateTask (mkCreate "Buy milk") None (Resolved t1) c0
       !! queryKeys.tasksList)
  = Some true.
Proof.
  intros t1 c0. cbn [resolve useCreateTask onSuccess onSettled].
  unfold invalidateQueries, c0, setQueryData.
  rewrite map_lookup_imap, lookup_insert_eq. reflexivity.
Qed.

End ClientFacts.

(** ** The data layer, operation by operation *)

Module StoreFacts.
Import Js Types Database.

#[local] Existing Instance TaskDataFacts.newest_first_total.
#[local] Existing Instance TaskDataFacts.newest_first_trans.

Lemma trimmed_title_valid (v : string) :
  1 <= String.length (trim v) -> String.length (trim v) <= 200 ->
  doValidate title_validators (cast_title v) = None.
Proof. intros. by apply TaskDataFacts.title_valid_iff. Qed.

Lemma default_status_valid :
  doValidate status_validators status_default = None.
Proof. apply TaskDataFacts.status_valid_iff. by left. Qed.

Lemma create_resolves (now : Z) (oid : string) (data : CreateTaskInput)
  (c : Collection) :
  1 <= String.length (trim (c_title data)) ->
  String.length (trim (c_title data)) <= 200 ->
  c !! oid = None ->
  TaskData.create now oid data c
  = (Resolved (mkITask oid (trim (c_title data)) "open" now now),
     <[oid := mkDoc (trim (c_title data)) "open" now now]> c).
Proof.
  intros Hlo Hhi Hfresh. unfold TaskData.create, save.
  rewrite trimmed_title_valid, default_status_valid by done.
  by rewrite Hfresh.
Qed.

Section with_engine.
Variable ObjectId_isValid : string -> bool.

Lemma findById_lookup (id : string) (c : Collection) :
  ObjectId_isValid id = true ->
  TaskData.findById ObjectId_isValid id c
  = (Resolved (toITask id <$> c !! id), c).
Proof.
  intros Hok. unfold TaskData.findById, bind.
  by rewrite TaskDataFacts.validateObjectId_ok.
Qed.

Lemma deleteById_lookup (id : string) (c : Collection) :
  ObjectId_isValid id = true ->
  TaskData.deleteById ObjectId_isValid id c
  = (Resolved (toITask id <$> c !! id), delete id c).
Proof.
  intros Hok. unfold TaskData.deleteById, bind.
  by rewrite TaskDataFacts.validateObjectId_ok.
Qed.

Lemma updateById_valid_id (now : Z) (id : string) (u : UpdateTaskInput)
  (c : Collection) :
  ObjectId_isValid id = true ->
  TaskData.updateById ObjectId_isValid now id u c
  = findByIdAndUpdate now id u c.
Proof.
  intros Hok. unfold TaskData.updateById, bind.
  by rewrite TaskDataFacts.validateObjectId_ok.
Qed.

(** X1: a valid title under a fresh key is stored trimmed, with status
    [open] and both dates at the time of the call; the count grows by
    one, the other records are untouched, and [findById] gives the new
    task back. *)
Theorem create_then_findById (now : Z) (oid : string)
  (data : CreateTaskInput) (c : Collection) :
  1 <= String.length (trim (c_title data)) ->
  String.length (trim (c_title data)) <= 200 ->
  c !! oid = None ->
  ObjectId_isValid oid = true ->
  exists t c',
    TaskData.create now oid data c = (Resolved t, c')
    /\ t = mkITask oid (trim (c_title data)) "open" now now
    /\ TaskData.count c' = (Resolved (S (size c)), c')
    /\ (forall id, id <> oid -> c' !! id = c !! id)
    /\ TaskData.findById ObjectId_isValid oid c' = (Resolved (Some t), c').
Proof.
  intros Hlo Hhi Hfresh Hok. eexists _, _.
  split; [by apply create_resolves|]. split; [reflexivity|].
  split.
  { unfold TaskData.count, countDocuments.
    by rewrite map_size_insert_None. }
  split.
  { intros id Hne. by rewrite lookup_insert_ne. }
  rewrite findById_lookup by done. by rewrite lookup_insert_eq.
Qed.

(** X2: [create] fails with a [ValidationError] exactly when the trimmed
    title is empty or longer than 200 characters, and then the collection
    is left as it was. *)
Theorem create_rejects_exactly_invalid_titles (now : Z) (oid : string)
  (data : CreateTaskInput) (c : Collection) :
  (String.length (trim (c_title data)) = 0
   \/ 200 < String.length (trim (c_title data)))
  <-> exists msg,
        TaskData.create now oid data c = (Rejected (ValidationError msg), c).
Proof.
  unfold TaskData.create, save. rewrite default_status_valid.
  destruct (doValidate title_validators (cast_title (c_title data)))
    as [msg|] eqn:Hv.
  - split; [by eexists|]. intros _.
    destruct (decide (1 <= String.length (trim (c_title data))
                      /\ String.length (trim (c_title data)) <= 200))
      as [Hok|Hbad]; [|lia].
    apply TaskDataFacts.title_valid_iff in Hok.
    unfold cast_title in Hv. congruence.
  - apply TaskDataFacts.title_valid_iff in Hv. unfold cast_title in Hv.
    split; [lia|]. intros [msg H].
    destruct (c !! oid); discriminate H.
Qed.

(** X3: deleting an existing record resolves to that record and removes
    exactly it: a later [findById] and a second [deleteById] resolve to
    [null], the count drops by one, the other records are untouched. *)
Theorem deleteById_removes_exactly_the_record (id : string) (d : Doc)
  (c : Collection) :
  ObjectId_isValid id = true ->
  c !! id = Some d ->
  exists c',
    TaskData.deleteById ObjectId_isValid id c
      = (Resolved (Some (toITask id d)), c')
    /\ TaskData.findById ObjectId_isValid id c' = (Resolved None, c')
    /\ TaskData.deleteById ObjectId_isValid id c' = (Resolved None, c')
    /\ S (size c') = size c
    /\ (forall id', id' <> id -> c' !! id' = c !! id').
Proof.
  intros Hok Hd. exists (delete id c).
  rewrite !deleteById_lookup, findById_lookup by done.
  rewrite Hd, !lookup_delete_eq. simpl.
  split; [done|]. split; [done|].
  split; [by rewrite delete_id by apply lookup_delete_eq|].
  split.
  - rewrite map_size_delete, Hd.
    assert (size c <> 0); [|simpl; lia].
    apply map_size_non_empty_iff. intros ->. by rewrite lookup_empty in Hd.
  - intros id' Hne. by rewrite lookup_delete_ne.
Qed.

(** X4: for a well-formed id without a record, under its spelling or under
    the hex string of the ObjectId it denotes, [deleteById] and a valid
    [updateById] resolve to [null] and leave the collection exactly as it
    was: an update never inserts. *)
Theorem missing_record_resolves_to_null (now : Z) (id : string)
  (u : UpdateTaskInput) (c : Collection) :
  ObjectId_isValid id = true ->
  c !! id = None ->
  c !! ObjectId_hex id = None ->
  TaskData.deleteById ObjectId_isValid id c = (Resolved None, c)
  /\ (validate_update u = None ->
      TaskData.updateById ObjectId_isValid now id u c = (Resolved None, c)).
Proof.
  intros Hok Hnone _. split.
  - rewrite deleteById_lookup by done. by rewrite Hnone, delete_id.
  - intros Hv. rewrite updateById_valid_id by done.
    unfold findByIdAndUpdate. by rewrite Hv, Hnone.
Qed.

(** X5: for an id the driver does not accept, [updateById] and [deleteById]
    fail with the invalid-id error before anything else is looked at, even
    an invalid update, and the collection is left as it was. *)
Theorem invalid_id_rejected_before_any_write (now : Z) (id : string)
  (u : UpdateTaskInput) (c : Collection) :
  ObjectId_isValid id = false ->
  TaskData.updateById ObjectId_isValid now id u c
    = (Rejected (new_Error "Invalid task ID format"), c)
  /\ TaskData.deleteById ObjectId_isValid id c
    = (Rejected (new_Error "Invalid task ID format"), c).
Proof.
  intros Hbad. unfold TaskData.updateById, TaskData.deleteById, bind.
  by rewrite TaskDataFacts.validateObjectId_throws.
Qed.

(** X6: whatever its outcome, [updateById] keeps the set of stored ids, and
    so the count: it neither inserts nor removes a record. *)
Theorem updateById_keeps_the_ids (now : Z) (id : string)
  (u : UpdateTaskInput) (c : Collection) :
  dom (TaskData.updateById ObjectId_isValid now id u c).2 = dom c
  /\ size (TaskData.updateById ObjectId_isValid now id u c).2 = size c.
Proof.
  assert (dom (TaskData.updateById ObjectId_isValid now id u c).2 = dom c)
    as Hdom.
  { unfold TaskData.updateById, TaskData.validateObjectId, bind.
    destruct (ObjectId_isValid id); simpl; [|done].
    unfold findByIdAndUpdate.
    destruct (validate_update u); [done|].
    destruct (c !! id) as [d|] eqn:Hd; [|done]. simpl.
    by apply dom_insert_lookup_L. }
  split; [exact Hdom|].
  by rewrite <-!size_dom, Hdom.
Qed.

(** X7: marking an existing task [done] and then [open] again leaves its
    title and creation date as they were, with status [open] and
    [updatedAt] at the time of the second update; no other record
    changes. *)
Theorem toggle_done_then_open (now1 now2 : Z) (id : string) (d : Doc)
  (c : Collection) :
  ObjectId_isValid id = true ->
  c !! id = Some d ->
  exists c1,
    TaskData.updateById ObjectId_isValid now1 id
      (mkUpdate None (Some "done")) c
    = (Resolved (Some (mkITask id (d_title d) "done" (d_createdAt d) now1)),
       c1)
    /\ TaskData.updateById ObjectId_isValid now2 id
         (mkUpdate None (Some "open")) c1
       = (Resolved (Some (mkITask id (d_title d) "open" (d_createdAt d) now2)),
          <[id := mkDoc (d_title d) "open" (d_createdAt d) now2]> c).
Proof.
  intros Hok Hd.
  exists (<[id := mkDoc (d_title d) "done" (d_createdAt d) now1]> c).
  rewrite !updateById_valid_id by done. unfold findByIdAndUpdate.
  change (validate_update (mkUpdate None (Some "done"))) with (@None string).
  change (validate_update (mkUpdate None (Some "open"))) with (@None string).
  rewrite Hd, lookup_insert_eq. split; [reflexivity|].
  by rewrite insert_insert_eq.
Qed.

(** X8: creating a task under a fresh key and deleting it again gives back
    the collection exactly as it was. *)
Theorem create_then_deleteById (now : Z) (oid : string)
  (data : CreateTaskInput) (c : Collection) :
  1 <= String.length (trim (c_title data)) ->
  String.length (trim (c_title data)) <= 200 ->
  c !! oid = None ->
  ObjectId_isValid oid = true ->
  exists t,
    TaskData.deleteById ObjectId_isValid oid
      (TaskData.create now oid data c).2
    = (Resolved (Some t), c)
    /\ TaskData.create now oid data c
       = (Resolved t, (TaskData.create now oid data c).2).
Proof.
  intros Hlo Hhi Hfresh Hok. rewrite create_resolves by done.
  eexists. cbn [snd]. rewrite deleteById_lookup by done.
  rewrite lookup_insert_eq, delete_insert_id by done.
  split; reflexivity.
Qed.

End with_engine.

(** *** Reads *)

Lemma all_docs_ids (c : Collection) :
  _id <$> all_docs c = (map_to_list c).*1.
Proof.
  unfold all_docs. rewrite <-list_fmap_compose. by apply list_fmap_ext.
Qed.

(** X9: [findAll] resolves to as many tasks as [count] reports, and no two of
    them have the same id. *)
Theorem findAll_one_task_per_record (c : Collection) :
  exists l,
    TaskData.findAll c = (Resolved l, c)
    /\ TaskData.count c = (Resolved (List.length l), c)
    /\ NoDup (_id <$> l).
Proof.
  exists (merge_sort newest_first (all_docs c)).
  split; [reflexivity|].
  assert (merge_sort newest_first (all_docs c) ≡ₚ all_docs c) as Hp
    by apply merge_sort_Permutation.
  split.
  - unfold TaskData.count, countDocuments.
    by rewrite Hp, TaskDataFacts.all_docs_length.
  - rewrite Hp, all_docs_ids. apply NoDup_fst_map_to_list.
Qed.

Lemma newest_is_head (l : list ITask) (t : ITask) :
  StronglySorted newest_first l ->
  t ∈ l ->
  (forall x, x ∈ l -> x <> t -> (createdAt x < createdAt t)%Z) ->
  exists rest, l = t :: rest.
Proof.
  intros Hs Hin Hlt. destruct l as [|x rest]; [by apply elem_of_nil in Hin|].
  destruct (decide (x = t)) as [->|Hne]; [by exists rest|].
  exfalso. apply elem_of_cons in Hin as [->|Hin]; [done|].
  apply StronglySorted_inv in Hs as [_ Hall].
  rewrite Forall_forall in Hall. specialize (Hall t Hin).
  unfold newest_first in Hall.
  specialize (Hlt x (list_elem_of_here _ _) Hne). lia.
Qed.

(** X10: a task created later than every stored one is the first in the list
    [findAll] gives next. *)
Theorem findAll_puts_new_task_first (now : Z) (oid : string)
  (data : CreateTaskInput) (c : Collection) :
  1 <= String.length (trim (c_title data)) ->
  String.length (trim (c_title data)) <= 200 ->
  c !! oid = None ->
  (forall id d, c !! id = Some d -> (d_createdAt d < now)%Z) ->
  exists t c' rest,
    TaskData.create now oid data c = (Resolved t, c')
    /\ TaskData.findAll c' = (Resolved (t :: rest), c').
Proof.
  intros Hlo Hhi Hfresh Hold.
  rewrite create_resolves by done.
  set (d := mkDoc (trim (c_title data)) "open" now now).
  set (t := mkITask oid (trim (c_title data)) "open" now now).
  set (c' := <[oid := d]> c).
  destruct (newest_is_head (merge_sort newest_first (all_docs c')) t)
    as [rest Hrest].
  - apply StronglySorted_merge_sort; apply _.
  - rewrite merge_sort_Permutation. apply TaskDataFacts.elem_of_all_docs.
    exists d. split; [apply lookup_insert_eq | done].
  - intros x Hx Hne. rewrite merge_sort_Permutation in Hx.
    apply TaskDataFacts.elem_of_all_docs in Hx as (dx & Hdx & Hxeq).
    destruct (decide (_id x = oid)) as [Heq|Hneq].
    + exfalso. apply Hne. rewrite Hxeq, Heq.
      subst c'. rewrite Heq, lookup_insert_eq in Hdx. by injection Hdx as <-.
    + subst c'. rewrite lookup_insert_ne in Hdx by done.
      rewrite Hxeq. simpl. by apply (Hold (_id x)).
  - exists t, c', rest. split; [done|].
    unfold TaskData.findAll, find_sorted. by rewrite Hrest.
Qed.

(** *** Statistics *)

Lemma bump_statuses (k : string) (acc : list TaskStats) :
  s_status <$> bump k acc
  = if decide (k ∈ s_status <$> acc) then s_status <$> acc
    else ((s_status <$> acc) ++ [k])%list.
Proof.
  induction acc as [|g r IH].
  - cbn. case_decide as H; [by apply elem_of_nil in H | done].
  - cbn [bump].
    destruct (decide (s_status g = k)) as [<-|Hne]; rewrite !fmap_cons.
    + rewrite decide_True; [done|]. apply list_elem_of_here.
    + rewrite IH. destruct (decide (k ∈ s_status <$> r)) as [Hin|Hnin].
      * rewrite decide_True; [done|]. by apply list_elem_of_further.
      * rewrite decide_False; [done|].
        rewrite elem_of_cons. intros [Hk|Hk]; [by apply Hne | done].
Qed.

Lemma bump_NoDup (k : string) (acc : list TaskStats) :
  NoDup (s_status <$> acc) -> NoDup (s_status <$> bump k acc).
Proof.
  intros Hnd. rewrite bump_statuses. case_decide; [done|].
  apply NoDup_app. split; [done|]. split; [|apply NoDup_singleton].
  intros x Hx Hk. apply list_elem_of_singleton in Hk. by subst.
Qed.

Lemma bump_positive (k : string) (acc : list TaskStats) :
  Forall (fun g => 0 < s_count g) acc ->
  Forall (fun g => 0 < s_count g) (bump k acc).
Proof.
  induction 1 as [|g r Hg Hr IH]; simpl.
  - repeat constructor.
  - case_decide; constructor; simpl; (done || lia).
Qed.

Lemma bump_has_key (k : string) (acc : list TaskStats) :
  k ∈ s_status <$> bump k acc.
Proof.
  rewrite bump_statuses. case_decide; [done|].
  apply elem_of_app. right. apply list_elem_of_here.
Qed.

Lemma bump_keeps_keys (k k' : string) (acc : list TaskStats) :
  k' ∈ s_status <$> acc -> k' ∈ s_status <$> bump k acc.
Proof.
  intros H. rewrite bump_statuses. case_decide; [done|].
  apply elem_of_app. by left.
Qed.

Lemma foldl_bump_invariants (l : list ITask) (acc : list TaskStats) :
  NoDup (s_status <$> acc) ->
  Forall (fun g => 0 < s_count g) acc ->
  let r := foldl (fun acc t => bump (status t) acc) acc l in
  NoDup (s_status <$> r)
  /\ Forall (fun g => 0 < s_count g) r
  /\ (forall k, k ∈ s_status <$> acc -> k ∈ s_status <$> r)
  /\ (forall t, t ∈ l -> status t ∈ s_status <$> r).
Proof.
  revert acc. induction l as [|t l IH]; intros acc Hnd Hpos; simpl.
  - split; [done|]. split; [done|]. split; [done|].
    intros t Ht. by apply elem_of_nil in Ht.
  - destruct (IH (bump (status t) acc)) as (H1 & H2 & H3 & H4).
    { by apply bump_NoDup. }
    { by apply bump_positive. }
    split; [done|]. split; [done|]. split.
    + intros k Hk. by apply H3, bump_keeps_keys.
    + intros t' Ht'. apply elem_of_cons in Ht' as [->|Ht'].
      * apply H3, bump_has_key.
      * by apply H4.
Qed.

Lemma group_sum_single (k : string) (l : list TaskStats) (g : TaskStats) :
  NoDup (s_status <$> l) -> g ∈ l -> s_status g = k ->
  sum_list_with (fun g' => if decide (s_status g' = k) then s_count g' else 0)
                l
  = s_count g.
Proof.
  intros Hnd Hin Hk. induction l as [|x r IH]; [by apply elem_of_nil in Hin|].
  rewrite fmap_cons in Hnd. apply NoDup_cons in Hnd as [Hx Hr].
  simpl. apply elem_of_cons in Hin as [->|Hin].
  - rewrite decide_True by done.
    assert (sum_list_with
              (fun g' => if decide (s_status g' = k) then s_count g' else 0) r
            = 0) as ->; [|lia].
    clear IH Hr. induction r as [|y r IHr]; [done|]. simpl.
    rewrite fmap_cons, not_elem_of_cons in Hx. destruct Hx as [Hy Hx].
    rewrite decide_False by congruence. by apply IHr.
  - rewrite decide_False.
    + by apply IH.
    + intros Hxk. apply Hx. rewrite Hxk, <-Hk.
      by apply list_elem_of_fmap_2.
Qed.

(** X11: [getStats] reports every status that occurs in the collection, each
    once, with the number of tasks that have it; a status without tasks
    is not reported. *)
Theorem getStats_counts_each_status (c : Collection) :
  exists stats,
    TaskData.getStats c = (Resolved stats, c)
    /\ NoDup (s_status <$> stats)
    /\ (forall g, g ∈ stats ->
          0 < s_count g
          /\ s_count g
             = List.length
                 (filter (fun t => status t = s_status g) (all_docs c)))
    /\ (forall t, t ∈ all_docs c -> status t ∈ s_status <$> stats).
Proof.
  eexists. split; [reflexivity|].
  destruct (foldl_bump_invariants (all_docs c) [])
    as (Hnd & Hpos & _ & Hall);
    [apply NoDup_nil_2 | constructor |].
  split; [exact Hnd|]. split; [|exact Hall].
  intros g Hg. rewrite Forall_forall in Hpos. split; [by apply Hpos|].
  rewrite <-(group_sum_single (s_status g) _ g Hnd Hg eq_refl).
  by rewrite TaskDataFacts.foldl_bump_group.
Qed.

(** X12: [hasAnyTasks] resolves to [true] exactly when the collection is not
    empty, and does not touch it. *)
Theorem hasAnyTasks_iff_not_empty (c : Collection) :
  exists b,
    TaskServices.hasAnyTasks c = (Resolved b, c)
    /\ (b = true <-> c <> ∅).
Proof.
  eexists. split; [reflexivity|].
  rewrite Nat.ltb_lt, <-map_size_non_empty_iff. lia.
Qed.

(** *** Instances on the seeded collection *)

Lemma create_then_findById_witness :
  1 <= String.length (trim " Buy milk ")
  /\ seed 0 !! "650000000000000000000009" = None
  /\ TaskParamsSchema "650000000000000000000009" = true
  /\ exists t c',
       TaskData.create 5 "650000000000000000000009" (mkCreate " Buy milk ")
         (seed 0) = (Resolved t, c')
       /\ t = mkITask "650000000000000000000009" "Buy milk" "open" 5 5
       /\ TaskData.count c' = (Resolved 4, c')
       /\ TaskData.findById TaskParamsSchema "650000000000000000000009" c'
          = (Resolved (Some t), c').
Proof.
  assert (H1 : 1 <= String.length (trim (c_title (mkCreate " Buy milk "))))
    by (vm_compute; lia).
  assert (H2 : String.length (trim (c_title (mkCreate " Buy milk "))) <= 200)
    by (vm_compute; lia).
  assert (H3 : seed 0 !! "650000000000000000000009" = None)
    by (vm_compute; reflexivity).
  assert (H4 : TaskParamsSchema "650000000000000000000009" = true)
    by reflexivity.
  split; [exact H1|]. split; [exact H3|]. split; [exact H4|].
  destruct (create_then_findById TaskParamsSchema 5
              "650000000000000000000009" (mkCreate " Buy milk ") (seed 0)
              H1 H2 H3 H4) as (t & c' & Hc & Ht & Hn & _ & Hf).
  exists t, c'. split; [exact Hc|]. split; [exact Ht|].
  split; [|exact Hf].
  assert (size (seed 0) = 3) as Hs by (vm_compute; reflexivity).
  by rewrite Hs in Hn.
Defined.

Lemma deleteById_removes_exactly_the_record_witness :
  TaskParamsSchema "650000000000000000000002" = true
  /\ seed 0 !! "650000000000000000000002"
     = Some (mkDoc "Review React Query documentation" "done"
                   (-86400000) (-86400000))
  /\ exists c',
       TaskData.deleteById TaskParamsSchema "650000000000000000000002"
         (seed 0)
       = (Resolved (Some (mkITask "650000000000000000000002"
                            "Review React Query documentation" "done"
                            (-86400000) (-86400000))), c')
       /\ TaskData.findById TaskParamsSchema "650000000000000000000002" c'
          = (Resolved None, c')
       /\ S (size c') = size (seed 0).
Proof.
  assert (H1 : TaskParamsSchema "650000000000000000000002" = true)
    by reflexivity.
  assert (H2 : seed 0 !! "650000000000000000000002"
               = Some (mkDoc "Review React Query documentation" "done"
                             (-86400000) (-86400000)))
    by (vm_compute; reflexivity).
  split; [exact H1|]. split; [exact H2|].
  destruct (deleteById_removes_exactly_the_record TaskParamsSchema
              "650000000000000000000002" _ (seed 0) H1 H2)
    as (c' & Hd & Hf & _ & Hs & _).
  exists c'. split; [exact Hd|]. split; [exact Hf | exact Hs].
Defined.

Lemma missing_record_resolves_to_null_witness :
  TaskParamsSchema "507f1f77bcf86cd799439011" = true
  /\ seed 0 !! "507f1f77bcf86cd799439011" = None
  /\ seed 0 !! ObjectId_hex "507f1f77bcf86cd799439011" = None
  /\ TaskData.deleteById TaskParamsSchema "507f1f77bcf86cd799439011" (seed 0)
     = (Resolved None, seed 0)
  /\ TaskData.updateById TaskParamsSchema 9 "507f1f77bcf86cd799439011"
       (mkUpdate (Some "Later") (Some "done")) (seed 0)
     = (Resolved None, seed 0).
Proof.
  assert (H1 : TaskParamsSchema "507f1f77bcf86cd799439011" = true)
    by reflexivity.
  assert (H2 : seed 0 !! "507f1f77bcf86cd799439011" = None)
    by (vm_compute; reflexivity).
  assert (H3 : seed 0 !! ObjectId_hex "507f1f77bcf86cd799439011" = None)
    by (vm_compute; reflexivity).
  split; [exact H1|]. split; [exact H2|]. split; [exact H3|].
  destruct (missing_record_resolves_to_null TaskParamsSchema 9
              "507f1f77bcf86cd799439011"
              (mkUpdate (Some "Later") (Some "done")) (seed 0) H1 H2 H3)
    as [Hd Hu].
  split; [exact Hd|]. apply Hu. reflexivity.
Defined.

Lemma invalid_id_rejected_before_any_write_witness :
  TaskParamsSchema "not-an-id" = false
  /\ TaskData.updateById TaskParamsSchema 9 "not-an-id"
       (mkUpdate (Some "   ") (Some "archived")) (seed 0)
     = (Rejected (new_Error "Invalid task ID format"), seed 0)
  /\ TaskData.deleteById TaskParamsSchema "not-an-id" (seed 0)
     = (Rejected (new_Error "Invalid task ID format"), seed 0).
Proof.
  assert (H1 : TaskParamsSchema "not-an-id" = false) by reflexivity.
  split; [exact H1|].
  apply (invalid_id_rejected_before_any_write TaskParamsSchema 9
           "not-an-id" (mkUpdate (Some "   ") (Some "archived")) (seed 0) H1).
Defined.

Lemma toggle_done_then_open_witness :
  TaskParamsSchema "650000000000000000000001" = true
  /\ seed 0 !! "650000000000000000000001"
     = Some (mkDoc "Complete the full-stack home test" "open" 0 0)
  /\ exists c1,
       TaskData.updateById TaskParamsSchema 3 "650000000000000000000001"
         (mkUpdate None (Some "done")) (seed 0)
       = (Resolved (Some (mkITask "650000000000000000000001"
                            "Complete the full-stack home test" "done" 0 3)),
          c1)
       /\ TaskData.updateById TaskParamsSchema 8 "650000000000000000000001"
            (mkUpdate None (Some "open")) c1
          = (Resolved (Some (mkITask "650000000000000000000001"
                               "Complete the full-stack home test" "open"
                               0 8)),
             <["650000000000000000000001" :=
                 mkDoc "Complete the full-stack home test" "open" 0 8]>
               (seed 0)).
Proof.
  assert (H1 : TaskParamsSchema "650000000000000000000001" = true)
    by reflexivity.
  assert (H2 : seed 0 !! "650000000000000000000001"
               = Some (mkDoc "Complete the full-stack home test" "open" 0 0))
    by (vm_compute; reflexivity).
  split; [exact H1|]. split; [exact H2|].
  apply (toggle_done_then_open TaskParamsSchema 3 8
           "650000000000000000000001" _ (seed 0) H1 H2).
Defined.

Lemma create_then_deleteById_witness :
  seed 0 !! "650000000000000000000009" = None
  /\ TaskParamsSchema "650000000000000000000009" = true
  /\ exists t,
       TaskData.deleteById TaskParamsSchema "650000000000000000000009"
         (TaskData.create 5 "650000000000000000000009"
            (mkCreate " Buy milk ") (seed 0)).2
       = (Resolved (Some t), seed 0).
Proof.
  assert (H1 : 1 <= String.length (trim (c_title (mkCreate " Buy milk "))))
    by (vm_compute; lia).
  assert (H2 : String.length (trim (c_title (mkCreate " Buy milk "))) <= 200)
    by (vm_compute; lia).
  assert (H3 : seed 0 !! "650000000000000000000009" = None)
    by (vm_compute; reflexivity).
  assert (H4 : TaskParamsSchema "650000000000000000000009" = true)
    by reflexivity.
  split; [exact H3|]. split; [exact H4|].
  destruct (create_then_deleteById TaskParamsSchema 5
              "650000000000000000000009" (mkCreate " Buy milk ") (seed 0)
              H1 H2 H3 H4) as (t & Hd & _).
  exists t. exact Hd.
Defined.

Lemma findAll_puts_new_task_first_witness :
  seed 0 !! "650000000000000000000009" = None
  /\ map_Forall (fun _ d => (d_createdAt d < 5)%Z) (seed 0)
  /\ exists t c' rest,
       TaskData.create 5 "650000000000000000000009" (mkCreate " Buy milk ")
         (seed 0) = (Resolved t, c')
       /\ TaskData.findAll c' = (Resolved (t :: rest), c').
Proof.
  assert (H1 : 1 <= String.length (trim (c_title (mkCreate " Buy milk "))))
    by (vm_compute; lia).
  assert (H2 : String.length (trim (c_title (mkCreate " Buy milk "))) <= 200)
    by (vm_compute; lia).
  assert (H3 : seed 0 !! "650000000000000000000009" = None)
    by (vm_compute; reflexivity).
  assert (H4 : map_Forall (fun _ d => (d_createdAt d < 5)%Z) (seed 0)).
  { unfold seed. repeat apply map_Forall_insert_2; simpl; try lia.
    apply map_Forall_empty. }
  split; [exact H3|]. split; [exact H4|].
  apply (findAll_puts_new_task_first 5 "650000000000000000000009"
           (mkCreate " Buy milk ") (seed 0) H1 H2 H3 H4).
Defined.

End StoreFacts.

(** ** More of the HTTP boundary *)

Module ApiMoreFacts.
Import Js Types Database Express.

Lemma hex_is_not_slash (c : ascii) : is_hex c = true -> is_slash c = false.
Proof.
  destruct c as [[] [] [] [] [] [] [] []]; vm_compute; congruence.
Qed.

Lemma all_hex_no_slash (s : string) : all_hex s = true -> has_slash s = false.
Proof.
  induction s as [|c r IH]; [done|]. cbn [all_hex has_slash].
  intros H. apply andb_true_iff in H as [Hc Hr].
  by rewrite (hex_is_not_slash c Hc), (IH Hr).
Qed.

Lemma well_formed_segment (id : string) :
  TaskParamsSchema id = true ->
  id <> EmptyString /\ has_slash id = false /\ lower id <> "stats".
Proof.
  unfold TaskParamsSchema. intros H.
  apply andb_true_iff in H as [Hlen Hhex]. apply Nat.eqb_eq in Hlen.
  split; [by intros ->|]. split; [by apply all_hex_no_slash|].
  intros Heq. apply (f_equal String.length) in Heq.
  rewrite RoutingFacts.lower_length, Hlen in Heq. discriminate Heq.
Qed.

Lemma hex_is_not_percent (c : ascii) :
  is_hex c = true -> is_percent c = false.
Proof.
  destruct c as [[] [] [] [] [] [] [] []]; vm_compute; congruence.
Qed.

Lemma all_hex_no_percent (s : string) :
  all_hex s = true -> has_percent s = false.
Proof.
  induction s as [|c r IH]; [done|]. cbn [all_hex has_percent].
  intros H. apply andb_true_iff in H as [Hc Hr].
  by rewrite (hex_is_not_percent c Hc), (IH Hr).
Qed.

Lemma well_formed_decodes (id : string) :
  TaskParamsSchema id = true -> decodeURIComponent id = Narrow id.
Proof.
  unfold TaskParamsSchema. intros H.
  apply andb_true_iff in H as [_ Hhex].
  by apply RoutingFacts.decode_no_percent, all_hex_no_percent.
Qed.

(** A route on a literal path binds no parameter: a request of another
    method passes it. *)
Lemma resolve_skip_literal {H} (m' : Method) (seg : string) (h : H)
  (r : Router H) (m : Method) (path : string) :
  m' <> m ->
  resolve ((m', Literal seg, h) :: r) m path = resolve r m path.
Proof.
  intros Hne. rewrite RoutingFacts.resolve_cons. cbn [match_path].
  destruct (String.eqb _ _); [|done].
  cbn [decode_params]. by rewrite decide_False.
Qed.

Lemma below_root (s : string) :
  s <> EmptyString -> match_path Root (String "/" s) = None.
Proof. by destruct s. Qed.

Section by_id_segment.
Variable id : string.
Hypothesis id_not_empty : id <> EmptyString.
Hypothesis id_no_slash : has_slash id = false.

Lemma resolve_patch_by_id :
  resolve TaskRoutes.router PATCH (String "/" id)
  = match decodeURIComponent id with
    | Malformed => RouteError (URIError id)
    | Wide => RouteToWide TaskRoutes.PatchTask
    | Narrow s => RouteTo TaskRoutes.PatchTask [("id", s)]
    end.
Proof.
  unfold TaskRoutes.router.
  rewrite resolve_skip_literal by done.
  rewrite RoutingFacts.resolve_cons, below_root by done.
  rewrite RoutingFacts.resolve_cons, below_root by done.
  rewrite RoutingFacts.resolve_cons, RoutingFacts.segment_is_param by done.
  rewrite RoutingFacts.resolve_cons, RoutingFacts.segment_is_param by done.
  cbn [decode_params].
  by destruct (decodeURIComponent id).
Qed.

Lemma resolve_delete_by_id :
  resolve TaskRoutes.router DELETE (String "/" id)
  = match decodeURIComponent id with
    | Malformed => RouteError (URIError id)
    | Wide => RouteToWide TaskRoutes.DeleteTask
    | Narrow s => RouteTo TaskRoutes.DeleteTask [("id", s)]
    end.
Proof.
  unfold TaskRoutes.router.
  rewrite resolve_skip_literal by done.
  rewrite RoutingFacts.resolve_cons, below_root by done.
  rewrite RoutingFacts.resolve_cons, below_root by done.
  rewrite RoutingFacts.resolve_cons, RoutingFacts.segment_is_param by done.
  rewrite RoutingFacts.resolve_cons, RoutingFacts.segment_is_param by done.
  rewrite RoutingFacts.resolve_cons, RoutingFacts.segment_is_param by done.
  cbn [decode_params].
  by destruct (decodeURIComponent id).
Qed.

Lemma dispatch_patch_by_id :
  App.dispatch PATCH ("/api/tasks/" ++ id)
  = match decodeURIComponent id with
    | Malformed => App.ToError (URIError id)
    | Wide => App.ToTaskWide TaskRoutes.PatchTask
    | Narrow s => App.ToTask TaskRoutes.PatchTask [("id", s)]
    end.
Proof.
  unfold App.dispatch.
  rewrite RoutingFacts.mounted_health_below_tasks.
  rewrite RoutingFacts.mounted_tasks_below_tasks by done.
  change ("/" ++ id) with (String "/" id).
  rewrite resolve_patch_by_id. by destruct (decodeURIComponent id).
Qed.

Lemma dispatch_delete_by_id :
  App.dispatch DELETE ("/api/tasks/" ++ id)
  = match decodeURIComponent id with
    | Malformed => App.ToError (URIError id)
    | Wide => App.ToTaskWide TaskRoutes.DeleteTask
    | Narrow s => App.ToTask TaskRoutes.DeleteTask [("id", s)]
    end.
Proof.
  unfold App.dispatch.
  rewrite RoutingFacts.mounted_health_below_tasks.
  rewrite RoutingFacts.mounted_tasks_below_tasks by done.
  change ("/" ++ id) with (String "/" id).
  rewrite resolve_delete_by_id. by destruct (decodeURIComponent id).
Qed.

End by_id_segment.

Lemma decode_params_fails (raw : list (string * string)) (e : Error) :
  decode_params raw = DecodeFails e -> exists v, e = URIError v.
Proof.
  revert e. induction raw as [|[k v] r IH]; intros e; [done|].
  cbn [decode_params]. destruct (decodeURIComponent v).
  - intros [= <-]. by eexists.
  - destruct (decode_params r); [done|done|]. intros [= <-]. by eapply IH.
  - destruct (decode_params r); [done|done|]. intros [= <-]. by eapply IH.
Qed.

(** A router without a route of the method passes the request on, unless
    a parameter of a route on its path does not decode. *)
Lemma resolve_no_method {H} (r : Router H) (m : Method) (path : string) :
  Forall (fun l => l.1.1 <> m) r ->
  resolve r m path = NoRoute
  \/ exists v, resolve r m path = RouteError (URIError v).
Proof.
  induction 1 as [|[[m' p] h] r Hne _ IH]; [by left|].
  rewrite RoutingFacts.resolve_cons. cbn [fst] in Hne.
  destruct (match_path p path) as [raw|]; [|exact IH].
  destruct (decode_params raw) as [params| |e] eqn:Hd.
  - by rewrite decide_False.
  - by rewrite decide_False.
  - right. apply decode_params_fails in Hd as [v ->]. by eexists.
Qed.

Lemma router_has_no_put : Forall (fun l => l.1.1 <> PUT) TaskRoutes.router.
Proof. unfold TaskRoutes.router. by repeat constructor. Qed.

Lemma route_put (rest : string) : route TaskRoutes.router PUT rest = None.
Proof.
  unfold TaskRoutes.router.
  by do 6 (rewrite RoutingFacts.route_cons, decide_False by done).
Qed.

(** X13: GET /api/tasks, with or without a trailing slash, answers 200 with
    the tasks [findAll] gives, in that order and one per stored record,
    and leaves the collection as it was. *)
Theorem get_tasks_lists_every_record
  (production : bool) (body : list (string * JsonValue)) (c : Collection) :
  exists l,
    TaskData.findAll c = (Resolved l, c)
    /\ App.handle production (mkRequest GET "/api/tasks" body) c
       = Some (mkResponse 200
                 (mkApi true
                    (Some (TaskList (TaskServices.formatTaskResponse <$> l)))
                    None None), c)
    /\ App.handle production (mkRequest GET "/api/tasks/" body) c
       = App.handle production (mkRequest GET "/api/tasks" body) c
    /\ List.length (TaskServices.formatTaskResponse <$> l) = size c
    /\ NoDup (TaskResponse.id <$> (TaskServices.formatTaskResponse <$> l)).
Proof.
  exists (merge_sort newest_first (all_docs c)).
  split; [reflexivity|]. split; [reflexivity|]. split; [reflexivity|].
  assert (merge_sort newest_first (all_docs c) ≡ₚ all_docs c) as Hp
    by apply merge_sort_Permutation.
  split.
  - by rewrite length_fmap, Hp, TaskDataFacts.all_docs_length.
  - rewrite <-list_fmap_compose.
    change (TaskResponse.id ∘ TaskServices.formatTaskResponse) with _id.
    rewrite Hp, StoreFacts.all_docs_ids. apply NoDup_fst_map_to_list.
Qed.

(** X14: PATCH and DELETE on /api/tasks/:id, for every id segment that is not
    empty and has no slash ([stats] included), leave the collection as it
    was, whatever the body.  When the segment percent-decodes they answer
    501 with [success: false]; when it holds a malformed percent escape
    Express fails to decode the parameter and the global error handler
    answers 500 with [success: false]. *)
Theorem patch_and_delete_not_implemented
  (production : bool) (id : string) (body : list (string * JsonValue))
  (c : Collection) :
  id <> EmptyString ->
  has_slash id = false ->
  (decodeURIComponent id <> Malformed ->
   App.handle production (mkRequest PATCH ("/api/tasks/" ++ id) body) c
   = Some (mkResponse 501
             (mkApi false None
                (Some "Not implemented yet - you need to implement task updates!")
                None), c)
   /\ App.handle production (mkRequest DELETE ("/api/tasks/" ++ id) body) c
      = Some (mkResponse 501
                (mkApi false None
                   (Some "Not implemented yet - you need to implement task deletion!")
                   None), c))
  /\ (decodeURIComponent id = Malformed ->
      forall m, m = PATCH \/ m = DELETE ->
      exists r,
        App.handle production (mkRequest m ("/api/tasks/" ++ id) body) c
        = Some (r, c)
        /\ statusCode r = 500
        /\ success (json r) = false
        /\ data (json r) = None
        /\ (production = true
            -> error (json r) = Some "Internal server error")).
Proof.
  intros Hne Hslash. unfold App.handle. cbn [method path]. split.
  - intros Hdec.
    rewrite dispatch_patch_by_id, dispatch_delete_by_id by done.
    by destruct (decodeURIComponent id).
  - intros Hdec m [-> | ->].
    + rewrite dispatch_patch_by_id, Hdec by done. eexists.
      split; [reflexivity|]. repeat (split; [reflexivity|]).
      by intros ->.
    + rewrite dispatch_delete_by_id, Hdec by done. eexists.
      split; [reflexivity|]. repeat (split; [reflexivity|]).
      by intros ->.
Qed.

Lemma patch_and_delete_not_implemented_witness :
  has_slash "stats" = false
  /\ App.handle true
       (mkRequest PATCH ("/api/tasks/" ++ "stats") [("status", JStr "done")])
       (seed 0)
     = Some (mkResponse 501
               (mkApi false None
                  (Some "Not implemented yet - you need to implement task updates!")
                  None), seed 0).
Proof.
  split; [reflexivity|].
  apply (patch_and_delete_not_implemented true "stats"
           [("status", JStr "done")] (seed 0)).
  - discriminate.
  - reflexivity.
  - vm_compute. discriminate.
Defined.

(** A DELETE whose id segment holds a malformed escape never reaches the
    handler. *)
Example delete_malformed_escape :
  App.handle false (mkRequest DELETE "/api/tasks/%E0%A4%A" []) (seed 0)
  = Some (mkResponse 500
            (mkApi false None
               (Some "Failed to decode param '%E0%A4%A'") None), seed 0).
Proof. reflexivity. Qed.

(** X15: a request whose id segment has the 24-hex-digit format of
    [TaskParamsSchema] always reaches the by-id handler of its method: no
    other route, [/stats] included, takes it. *)
Theorem well_formed_id_reaches_by_id_route (id : string) :
  TaskParamsSchema id = true ->
  App.dispatch GET ("/api/tasks/" ++ id)
    = App.ToTask TaskRoutes.GetTaskById [("id", id)]
  /\ App.dispatch PATCH ("/api/tasks/" ++ id)
    = App.ToTask TaskRoutes.PatchTask [("id", id)]
  /\ App.dispatch DELETE ("/api/tasks/" ++ id)
    = App.ToTask TaskRoutes.DeleteTask [("id", id)].
Proof.
  intros H. pose proof (well_formed_decodes id H) as Hdec.
  apply well_formed_segment in H as (Hne & Hslash & Hstats).
  rewrite RoutingFacts.dispatch_get_by_id by done.
  rewrite dispatch_patch_by_id, dispatch_delete_by_id by done.
  by rewrite Hdec.
Qed.

Lemma well_formed_id_reaches_by_id_route_witness :
  TaskParamsSchema "507f1f77bcf86cd799439011" = true
  /\ App.dispatch GET ("/api/tasks/" ++ "507f1f77bcf86cd799439011")
     = App.ToTask TaskRoutes.GetTaskById [("id", "507f1f77bcf86cd799439011")].
Proof.
  split; [reflexivity|].
  apply (well_formed_id_reaches_by_id_route "507f1f77bcf86cd799439011").
  reflexivity.
Defined.

(** X16: the global error handler always answers with [success: false] and no
    data.  The status is 400 for a duplicate key, a [ValidationError] (with
    the error's message in [details]) and a [CastError], and 500 for every
    other error; the message of such an error is sent outside production
    and replaced by a fixed text in production. *)
Theorem errorHandler_statuses (production : bool) (e : Error) :
  success (json (App.errorHandler production e)) = false
  /\ data (json (App.errorHandler production e)) = None
  /\ (statusCode (App.errorHandler production e) = 400
      <-> (name e = "MongoServerError" /\ code e = Some 11000%Z)
          \/ name e = "ValidationError" \/ name e = "CastError")
  /\ (statusCode (App.errorHandler production e) = 400
      \/ App.errorHandler production e
         = mkResponse 500
             (mkApi false None
                (Some (if production then "Internal server error"
                       else message e)) None))
  /\ (App.errorHandler production (ValidationError (message e))
      = mkResponse 400
          (mkApi false None (Some "Validation failed") (Some (message e)))).
Proof.
  unfold App.errorHandler.
  destruct (String.eqb_spec (name e) "MongoServerError") as [Hm|Hm];
    destruct (bool_decide_reflect (code e = Some 11000%Z)) as [Hc|Hc];
    destruct (String.eqb_spec (name e) "ValidationError") as [Hv|Hv];
    destruct (String.eqb_spec (name e) "CastError") as [Hk|Hk];
    cbn [andb statusCode json success data res_status_json];
    (split; [done|]); (split; [done|]);
    (split; [|split; [auto | done]]);
    (split; [intros H; try discriminate H; tauto | intros H; try done]);
    try congruence;
    destruct H as [[? ?]|[?|?]]; congruence.
Qed.

(** X17: the two failures of the data layer at the global error handler: an
    invalid title is answered 400 with the message of Mongoose's
    validation error in [details], which is the heading
    [Task validation failed], the failing path [title] and the text of
    its validator; an invalid id is answered 500, with its message
    outside production only. *)
Theorem data_layer_errors_at_errorHandler
  (ObjectId_isValid : string -> bool) (production : bool) (now : Z)
  (oid id : string) (data : CreateTaskInput) (c : Collection) :
  (String.length (trim (c_title data)) = 0
   \/ 200 < String.length (trim (c_title data))) ->
  ObjectId_isValid id = false ->
  (exists msg,
     msg = "Task validation failed: title: "
           ++ (if Nat.eqb (String.length (trim (c_title data))) 0
               then "Title is required"
               else "Title cannot exceed 200 characters")
     /\ TaskData.create now oid data c = (Rejected (ValidationError msg), c)
     /\ App.errorHandler production (ValidationError msg)
        = mkResponse 400
            (mkApi false None (Some "Validation failed") (Some msg)))
  /\ (exists e,
        TaskData.findById ObjectId_isValid id c = (Rejected e, c)
        /\ App.errorHandler production e
           = mkResponse 500
               (mkApi false None
                  (Some (if production then "Internal server error"
                         else "Invalid task ID format")) None)).
Proof.
  intros Hbad Hid. split.
  - eexists. split; [reflexivity|]. split; [|reflexivity].
    unfold TaskData.create, save, path_errors, cast_title.
    rewrite (TaskDataFacts.title_invalid_text _ Hbad).
    by rewrite StoreFacts.default_status_valid.
  - eexists. split.
    + unfold TaskData.findById, bind.
      by rewrite TaskDataFacts.validateObjectId_throws.
    + reflexivity.
Qed.

Lemma data_layer_errors_at_errorHandler_witness :
  String.length (trim "   ") = 0
  /\ TaskParamsSchema "not-an-id" = false
  /\ TaskData.create 5 "650000000000000000000009" (mkCreate "   ") (seed 0)
     = (Rejected
          (ValidationError "Task validation failed: title: Title is required"),
        seed 0)
  /\ (exists e,
        TaskData.findById TaskParamsSchema "not-an-id" (seed 0)
          = (Rejected e, seed 0)
        /\ statusCode (App.errorHandler true e) = 500).
Proof.
  assert (H1 : String.length (trim (c_title (mkCreate "   "))) = 0)
    by reflexivity.
  assert (H2 : TaskParamsSchema "not-an-id" = false) by reflexivity.
  split; [exact H1|]. split; [exact H2|].
  destruct (data_layer_errors_at_errorHandler TaskParamsSchema true 5
              "650000000000000000000009" "not-an-id" (mkCreate "   ")
              (seed 0) (or_introl H1) H2)
    as [(msg & -> & Hc & _) (e & Hf & He)].
  split; [exact Hc|]. exists e. split; [exact Hf|].
  by rewrite He.
Defined.

(** X18: a request outside the two mount points, and every PUT request that
    is not below [/api/health], leaves the collection as it was.  It is
    answered 404 with [success: false] when its path has no percent sign;
    when its path holds a malformed percent escape, Express fails to
    decode it on the way and the global error handler answers 500 with
    [success: false]. *)
Theorem unmatched_requests_get_404
  (production : bool) (req : Request) (c : Collection) :
  mounted "/api/health" (path req) = None ->
  mounted "/api/tasks" (path req) = None \/ method req = PUT ->
  (has_percent (path req) = false ->
   App.handle production req c
   = Some (mkResponse 404
             (mkApi false None (Some "Endpoint not found") None), c))
  /\ (decodeURIComponent (path req) = Malformed ->
      exists r,
        App.handle production req c = Some (r, c)
        /\ statusCode r = 500
        /\ success (json r) = false
        /\ data (json r) = None
        /\ (production = true
            -> error (json r) = Some "Internal server error")).
Proof.
  intros Hh Ht. unfold App.handle, App.dispatch. rewrite Hh. split.
  - intros Hp.
    assert (App.fallthrough (path req) = App.ToNotFound) as Hfall.
    { unfold App.fallthrough. by rewrite RoutingFacts.decode_no_percent. }
    destruct Ht as [-> | ->]; [by rewrite Hfall|].
    destruct (mounted "/api/tasks" (path req)) as [rest|] eqn:Hm;
      [|by rewrite Hfall].
    rewrite RoutingFacts.resolve_no_percent
      by (by eapply RoutingFacts.mounted_no_percent).
    by rewrite route_put, Hfall.
  - intros Hdec.
    assert (App.fallthrough (path req) = App.ToError (URIError (path req)))
      as Hfall.
    { unfold App.fallthrough. by rewrite Hdec. }
    assert (forall v, exists r,
              Some (App.errorHandler production (URIError v), c) = Some (r, c)
              /\ statusCode r = 500
              /\ success (json r) = false
              /\ data (json r) = None
              /\ (production = true
                  -> error (json r) = Some "Internal server error")) as Herr.
    { intros v. eexists. split; [reflexivity|].
      repeat (split; [reflexivity|]). by intros ->. }
    destruct Ht as [-> | ->]; [rewrite Hfall; apply Herr|].
    destruct (mounted "/api/tasks" (path req)) as [rest|];
      [|rewrite Hfall; apply Herr].
    destruct (resolve_no_method TaskRoutes.router PUT rest router_has_no_put)
      as [-> | [v ->]]; [rewrite Hfall|]; apply Herr.
Qed.

Lemma unmatched_requests_get_404_witness :
  mounted "/api/health" "/api/tasks/650000000000000000000001" = None
  /\ App.handle false
       (mkRequest PUT "/api/tasks/650000000000000000000001"
          [("title", JStr "x")]) (seed 0)
     = Some (mkResponse 404
               (mkApi false None (Some "Endpoint not found") None), seed 0).
Proof.
  split; [reflexivity|].
  apply (unmatched_requests_get_404 false
           (mkRequest PUT "/api/tasks/650000000000000000000001"
              [("title", JStr "x")]) (seed 0)).
  - reflexivity.
  - by right.
  - reflexivity.
Defined.

(** A path outside the mount points with a malformed escape is not
    answered 404: the layer of the 404 handler fails to decode it. *)
Example unmatched_malformed_escape :
  App.handle false (mkRequest GET "/%zz" []) (seed 0)
  = Some (mkResponse 500
            (mkApi false None (Some "Failed to decode param '/%zz'") None),
          seed 0).
Proof. reflexivity. Qed.

End ApiMoreFacts.

(** ** Trimming *)

Module TrimFacts.
Import Js.

Lemma trimStart_length (s : string) :
  String.length (trimStart s) <= String.length s.
Proof.
  induction s as [|c r IH]; simpl; [done|].
  destruct (is_ws c); simpl; lia.
Qed.

Lemma trimEnd_length (s : string) :
  String.length (trimEnd s) <= String.length s.
Proof.
  induction s as [|c r IH]; simpl; [done|].
  destruct (trimEnd r) as [|a e]; [destruct (is_ws c)|]; simpl in *; lia.
Qed.

Lemma trim_length (s : string) : String.length (trim s) <= String.length s.
Proof.
  unfold trim. etrans; [apply trimEnd_length | apply trimStart_length].
Qed.

Lemma trimEnd_idem (s : string) : trimEnd (trimEnd s) = trimEnd s.
Proof.
  induction s as [|c r IH]; [done|]. cbn [trimEnd].
  destruct (trimEnd r) as [|a e] eqn:He.
  - destruct (is_ws c) eqn:Hc; [done|]. cbn [trimEnd]. by rewrite Hc.
  - cbn [trimEnd]. cbn [trimEnd] in IH. by rewrite IH.
Qed.

Lemma trimEnd_keeps_head (c : ascii) (r : string) :
  is_ws c = false -> exists r', trimEnd (String c r) = String c r'.
Proof.
  intros Hc. cbn [trimEnd]. destruct (trimEnd r) as [|a e]; [|by eexists].
  rewrite Hc. by eexists.
Qed.

Lemma trim_idem (s : string) : trim (trim s) = trim s.
Proof.
  unfold trim. pose proof (JsFacts.trimStart_no_leading_ws s) as Hhead.
  destruct (trimStart s) as [|c r]; [done|].
  destruct (trimEnd_keeps_head c r Hhead) as [r' Hr'].
  rewrite Hr'. cbn [trimStart]. rewrite Hhead, <-Hr'. apply trimEnd_idem.
Qed.

Lemma trim_blank_iff (s : string) :
  trim s = EmptyString <-> String.length (trim s) = 0.
Proof. destruct (trim s); simpl; split; congruence. Qed.

End TrimFacts.

(** ** The request schemas *)

Module SchemaFacts.
Import Js Types Database Express Schemas.

Lemma title_issues_nil (min_msg raw : string) :
  title_issues min_msg raw = []
  <-> 1 <= String.length raw /\ String.length raw <= 200.
Proof.
  unfold title_issues.
  destruct (Nat.ltb_spec (String.length raw) 1);
    destruct (Nat.ltb_spec 200 (String.length raw)); simpl;
    split; (done || lia).
Qed.

Lemma title_schema_success (min_msg : string) (v : JsonValue) (t : string) :
  title_schema min_msg v = ParseSuccess t
  <-> exists raw, v = JStr raw /\ 1 <= String.length raw
                  /\ String.length raw <= 200 /\ t = trim raw.
Proof.
  unfold title_schema. destruct v as [| b | n | raw];
    try (split; [done | by intros (? & ? & _)]).
  destruct (title_issues min_msg raw) as [|i rest] eqn:Hi.
  - apply title_issues_nil in Hi as [Hlo Hhi]. split.
    + intros [= <-]. by exists raw.
    + by intros (? & [= <-] & _ & _ & ->).
  - split; [done|]. intros (? & [= <-] & Hlo & Hhi & _).
    assert (title_issues min_msg raw = []) by (by apply title_issues_nil).
    congruence.
Qed.

Lemma CreateTaskSchema_success_iff (body : list (string * JsonValue))
  (d : CreateTaskInput) :
  CreateTaskSchema body = ParseSuccess d
  <-> exists raw,
        get_field "title" body = Some (JStr raw)
        /\ 1 <= String.length raw /\ String.length raw <= 200
        /\ d = mkCreate (trim raw).
Proof.
  unfold CreateTaskSchema.
  destruct (get_field "title" body) as [v|]; [|split; [done|]].
  - destruct (title_schema "Title is required" v) as [t|rest] eqn:Ht.
    + apply title_schema_success in Ht as (raw & -> & Hlo & Hhi & ->).
      split.
      * intros [= <-]. by exists raw.
      * by intros (? & [= <-] & _ & _ & ->).
    + split; [done|]. intros (raw & [= ->] & Hlo & Hhi & _).
      assert (title_schema "Title is required" (JStr raw)
              = ParseSuccess (trim raw)) as H.
      { apply title_schema_success. by exists raw. }
      congruence.
  - by intros (? & ? & _).
Qed.

(** X19: [CreateTaskSchema] accepts exactly the bodies whose [title] is a
    string of 1 to 200 characters as received, and gives the trimmed
    title, of at most 200 characters.  The lengths are checked before the
    trim: a title of 201 characters is refused even when trimming would
    shorten it, and a title of blanks only is accepted and comes out
    empty. *)
Theorem CreateTaskSchema_accepts (body : list (string * JsonValue))
  (d : CreateTaskInput) :
  (CreateTaskSchema body = ParseSuccess d
   <-> exists raw,
         get_field "title" body = Some (JStr raw)
         /\ 1 <= String.length raw /\ String.length raw <= 200
         /\ d = mkCreate (trim raw))
  /\ (forall raw, get_field "title" body = Some (JStr raw) ->
        200 < String.length raw ->
        exists issues, CreateTaskSchema body = ParseFailure issues)
  /\ (forall raw, get_field "title" body = Some (JStr raw) ->
        1 <= String.length raw -> String.length raw <= 200 ->
        trim raw = EmptyString ->
        CreateTaskSchema body = ParseSuccess (mkCreate EmptyString)).
Proof.
  split; [apply CreateTaskSchema_success_iff|]. split.
  - intros raw Hf Hlong.
    destruct (CreateTaskSchema body) as [d'|issues] eqn:Hp; [|by eexists].
    apply CreateTaskSchema_success_iff in Hp as (raw' & Hf' & _ & Hhi & _).
    rewrite Hf in Hf'. injection Hf' as ->. lia.
  - intros raw Hf Hlo Hhi Hblank. apply CreateTaskSchema_success_iff.
    exists raw. by rewrite Hblank.
Qed.

(** X20: what the store makes of a title [CreateTaskSchema] has accepted: a
    title that is not empty is stored as parsed, under a fresh key; an
    empty one, which the schema gives for a title of blanks only, is
    refused with Mongoose's validation error, whose message is
    [Task validation failed: title: Title is required], and nothing is
    stored. *)
Theorem CreateTaskSchema_then_create (body : list (string * JsonValue))
  (d : CreateTaskInput) (now : Z) (oid : string) (c : Collection) :
  CreateTaskSchema body = ParseSuccess d ->
  c !! oid = None ->
  TaskData.create now oid d c
  = if String.eqb (c_title d) EmptyString
    then (Rejected
            (ValidationError
               "Task validation failed: title: Title is required"), c)
    else (Resolved (mkITask oid (c_title d) "open" now now),
          <[oid := mkDoc (c_title d) "open" now now]> c).
Proof.
  intros Hp Hfresh.
  apply CreateTaskSchema_success_iff in Hp as (raw & _ & Hlo & Hhi & ->).
  cbn [c_title].
  destruct (String.eqb_spec (trim raw) EmptyString) as [He|Hne].
  - unfold TaskData.create, save, cast_title. cbn [c_title].
    by rewrite TrimFacts.trim_idem, He.
  - pose proof (TrimFacts.trim_length raw).
    assert (String.length (trim raw) <> 0).
    { intros H0. by apply TrimFacts.trim_blank_iff in H0. }
    rewrite StoreFacts.create_resolves; cbn [c_title];
      rewrite ?TrimFacts.trim_idem; (done || lia).
Qed.

Lemma CreateTaskSchema_then_create_witness :
  CreateTaskSchema [("title", JStr "   ")] = ParseSuccess (mkCreate EmptyString)
  /\ seed 0 !! "650000000000000000000009" = None
  /\ TaskData.create 5 "650000000000000000000009" (mkCreate EmptyString) (seed 0)
     = (Rejected
          (ValidationError "Task validation failed: title: Title is required"),
        seed 0).
Proof.
  assert (H1 : CreateTaskSchema [("title", JStr "   ")]
               = ParseSuccess (mkCreate EmptyString)) by reflexivity.
  assert (H2 : seed 0 !! "650000000000000000000009" = None)
    by (vm_compute; reflexivity).
  split; [exact H1|]. split; [exact H2|].
  apply (CreateTaskSchema_then_create _ _ 5 _ (seed 0) H1 H2).
Defined.

Lemma status_schema_success (v : JsonValue) (st : string) :
  status_schema v = ParseSuccess st ->
  doValidate status_validators st = None.
Proof.
  unfold status_schema, status_validators. destruct v as [| | |s]; try done.
  case_bool_decide as Hin; [|done]. intros [= <-]. simpl.
  by rewrite bool_decide_true.
Qed.

(** X21: every update [UpdateTaskSchema] accepts, the empty one included,
    passes the validators of the store, except one whose title is empty
    (the schema's output for a title of blanks only); the store then
    refuses it with [Title is required]. *)
Theorem UpdateTaskSchema_then_validate (body : list (string * JsonValue))
  (u : UpdateTaskInput) :
  UpdateTaskSchema body = ParseSuccess u ->
  validate_update u
  = if bool_decide (u_title u = Some EmptyString)
    then Some "Title is required" else None.
Proof.
  unfold UpdateTaskSchema, optional. intros Hp.
  assert (Hst : forall st, u_status u = Some st ->
                           doValidate status_validators st = None).
  { intros st Hu.
    destruct (get_field "title" body) as [tv|];
      [destruct (title_schema "Title cannot be empty" tv)|];
      (destruct (get_field "status" body) as [sv|];
       [destruct (status_schema sv) as [s|] eqn:Hs|]);
      try discriminate Hp; injection Hp as <-; cbn [u_status] in Hu;
      try discriminate Hu; injection Hu as <-;
      by apply (status_schema_success sv). }
  assert (Ht : forall t, u_title u = Some t ->
                 exists raw, 1 <= String.length raw
                             /\ String.length raw <= 200 /\ t = trim raw).
  { intros t Hu.
    destruct (get_field "title" body) as [tv|];
      [destruct (title_schema "Title cannot be empty" tv) as [t'|] eqn:Htv|];
      (destruct (get_field "status" body) as [sv|];
       [destruct (status_schema sv)|]);
      try discriminate Hp; injection Hp as <-; cbn [u_title] in Hu;
      try discriminate Hu; injection Hu as <-;
      apply title_schema_success in Htv as (raw & _ & ? & ? & ->);
      by exists raw. }
  unfold validate_update, cast_title.
  destruct (u_title u) as [t|] eqn:Hut.
  - destruct (Ht t eq_refl) as (raw & Hlo & Hhi & ->).
    rewrite TrimFacts.trim_idem.
    destruct (String.eqb_spec (trim raw) EmptyString) as [He|Hne].
    + rewrite He, bool_decide_true by done. reflexivity.
    + rewrite bool_decide_false by congruence.
      pose proof (TrimFacts.trim_length raw).
      assert (String.length (trim raw) <> 0).
      { intros H0. by apply TrimFacts.trim_blank_iff in H0. }
      assert (doValidate title_validators (trim raw) = None) as ->.
      { apply TaskDataFacts.title_valid_iff. lia. }
      destruct (u_status u) as [st|]; [by apply Hst | done].
  - rewrite bool_decide_false by done.
    destruct (u_status u) as [st|]; [by apply Hst | done].
Qed.

Lemma UpdateTaskSchema_then_validate_witness :
  UpdateTaskSchema [("title", JStr "  "); ("status", JStr "done")]
  = ParseSuccess (mkUpdate (Some EmptyString) (Some "done"))
  /\ validate_update (mkUpdate (Some EmptyString) (Some "done"))
     = Some "Title is required".
Proof.
  assert (H1 : UpdateTaskSchema [("title", JStr "  "); ("status", JStr "done")]
               = ParseSuccess (mkUpdate (Some EmptyString) (Some "done")))
    by reflexivity.
  split; [exact H1|].
  apply (UpdateTaskSchema_then_validate _ _ H1).
Defined.

End SchemaFacts.

(** ** The health check *)

Module HealthFacts.
Import Js Types Database Express.

Section with_process.
Context {Uptime MemoryUsage : Type}.
Implicit Type p : Health.Process Uptime MemoryUsage.

(** X22: GET /api/health answers 200 with [success: true] exactly when the
    database connection is open ([readyState] 1), and 503 with
    [success: false] otherwise; the report says the same, [isHealthy]
    agrees, and the collection is left as it was.  GET /api/health/simple
    answers 200 whatever the connection state. *)
Theorem health_follows_connection p (production : bool)
  (body : list (string * JsonValue)) (c : Collection) :
  exists report,
    Health.checkHealth p c = (Resolved report, c)
    /\ Health.handle p production (mkRequest GET "/api/health" body) c
       = Some (inl (Health.mkResponse _ _
                      (if Nat.eqb (Health.readyState p) 1 then 200 else 503)
                      (Nat.eqb (Health.readyState p) 1)
                      (Health.FullReport _ _ report)), c)
    /\ Health.h_status report
       = (if Nat.eqb (Health.readyState p) 1
          then Health.healthy else Health.unhealthy)
    /\ Health.database report
       = (if Nat.eqb (Health.readyState p) 1
          then Health.connected else Health.disconnected)
    /\ Health.isHealthy p c = (Resolved (Nat.eqb (Health.readyState p) 1), c)
    /\ Health.handle p production
         (mkRequest GET "/api/health/simple" body) c
       = Some (inl (Health.mkResponse _ _ 200 true
                      (Health.SimpleReport _ _ "healthy" "API is running"
                         (Health.timestamp p))), c).
Proof.
  eexists. split; [reflexivity|].
  unfold Health.handle, Health.isHealthy, try_catch, bind.
  cbn [method path].
  change (App.dispatch GET "/api/health") with (App.ToHealth "/").
  change (App.dispatch GET "/api/health/simple")
    with (App.ToHealth "/simple").
  change (route Health.router GET "/")
    with (Some (Health.HealthCheck, [] : list (string * string))).
  change (route Health.router GET "/simple")
    with (Some (Health.HealthSimple, [] : list (string * string))).
  unfold Health.run, Health.checkHealth. cbn.
  destruct (Nat.eqb (Health.readyState p) 1); cbn; done.
Qed.

(** X23: with the connection open, the report's [tasksCount] is 1 for every
    collection that is not empty, however many tasks it holds, and 0 for
    the empty one. *)
Theorem health_tasksCount_is_a_flag p (c : Collection) :
  Health.readyState p = 1 ->
  exists report,
    Health.checkHealth p c = (Resolved report, c)
    /\ Health.h_status report = Health.healthy
    /\ Health.tasksCount (Health.info report)
       = (if decide (c = ∅) then 0 else 1).
Proof.
  intros Hready. eexists. split; [reflexivity|].
  cbn. rewrite Hready. split; [done|].
  destruct (decide (c = ∅)) as [->|Hne]; [done|].
  apply map_size_non_empty_iff in Hne.
  destruct (size c); [done|]. reflexivity.
Qed.

End with_process.

Lemma health_tasksCount_is_a_flag_witness :
  Health.readyState (Health.mkProcess nat unit
                       "2025-09-15T10:30:00.000Z" 12 tt 1) = 1
  /\ size (seed 0) = 3
  /\ exists report,
       Health.checkHealth
         (Health.mkProcess nat unit "2025-09-15T10:30:00.000Z" 12 tt 1)
         (seed 0) = (Resolved report, seed 0)
       /\ Health.tasksCount (Health.info report) = 1.
Proof.
  split; [reflexivity|]. split; [vm_compute; reflexivity|].
  destruct (health_tasksCount_is_a_flag
              (Health.mkProcess nat unit "2025-09-15T10:30:00.000Z" 12 tt 1)
              (seed 0) eq_refl) as (report & Hc & _ & Hn).
  exists report. split; [exact Hc|]. rewrite Hn.
  rewrite decide_False; [done|].
  intros Hempty. apply (f_equal size) in Hempty.
  vm_compute in Hempty. discriminate Hempty.
Defined.

End HealthFacts.

(** ** The frontend hooks and components *)

Module FrontendFacts.
Import Js Types Database Client Frontend.

(** *** Mutations *)

Lemma invalidate_other_key (k key : list string) (c : QueryCache) :
  is_prefix k key = false -> invalidateQueries k c !! key = c !! key.
Proof.
  intros Hp. unfold invalidateQueries. rewrite map_lookup_imap.
  destruct (c !! key) as [q|]; simpl; [|done]. by rewrite Hp.
Qed.

(** X24: update and delete mutations, like create, touch the cache neither
    when issued nor when they fail, and with the API binding as it is they
    always fail; were one to succeed, every cached query would still read
    the same. *)
Theorem update_and_delete_leave_cache
  (id : string) (updates : UpdateTaskInput) (c : QueryCache) :
  (issue useUpdateTask (id, updates) c).2 = c
  /\ (issue useDeleteTask id c).2 = c
  /\ mutate useUpdateTask (id, updates) c
     = (Rejected (new_Error
          "updateTask not implemented yet - you need to implement this!"), c)
  /\ mutate useDeleteTask id c
     = (Rejected (new_Error
          "deleteTask not implemented yet - you need to implement this!"), c)
  /\ (forall ctx t key,
        getQueryData key
          (resolve useUpdateTask (id, updates) ctx (Resolved t) c)
        = getQueryData key c)
  /\ (forall ctx key,
        getQueryData key (resolve useDeleteTask id ctx (Resolved tt) c)
        = getQueryData key c).
Proof.
  repeat (split; [reflexivity|]).
  split; intros; apply ClientFacts.getQueryData_invalidate.
Qed.

(** X25: a mutation that succeeds marks the task list query for a refetch and
    nothing else: the statistics query and the detail queries keep their
    state, so cached statistics are not refreshed by a mutation. *)
Theorem success_invalidates_only_the_list
  (input : Client.CreateTaskInput) (id : string) (updates : UpdateTaskInput)
  (t : Task) (c : QueryCache) :
  resolve useCreateTask input None (Resolved t) c
    = invalidateQueries queryKeys.tasksList c
  /\ resolve useUpdateTask (id, updates) None (Resolved t) c
    = invalidateQueries queryKeys.tasksList c
  /\ resolve useDeleteTask id None (Resolved tt) c
    = invalidateQueries queryKeys.tasksList c
  /\ invalidateQueries queryKeys.tasksList c !! queryKeys.tasksList
     = (fun q => mkQuery (q_data q) true) <$> c !! queryKeys.tasksList
  /\ invalidateQueries queryKeys.tasksList c !! queryKeys.tasksStats
     = c !! queryKeys.tasksStats
  /\ (forall id',
        invalidateQueries queryKeys.tasksList c !! queryKeys.tasksDetail id'
        = c !! queryKeys.tasksDetail id').
Proof.
  repeat (split; [reflexivity|]).
  split.
  - unfold invalidateQueries. rewrite map_lookup_imap.
    destruct (c !! queryKeys.tasksList); reflexivity.
  - split; [by apply invalidate_other_key|].
    intros id'. by apply invalidate_other_key.
Qed.

(** *** The statistics panel *)

Lemma group_sum_absent (k : string) (l : list Types.TaskStats) :
  k ∉ Types.s_status <$> l ->
  sum_list_with (fun g => if decide (Types.s_status g = k)
                          then Types.s_count g else 0) l = 0.
Proof.
  induction l as [|g r IH]; [done|]. rewrite fmap_cons, not_elem_of_cons.
  intros [Hg Hr]. simpl. rewrite decide_False by congruence. by apply IH.
Qed.

Lemma count_of_wire (k : string) (l : list Types.TaskStats) :
  NoDup (Types.s_status <$> l) ->
  count_of k (stats_of_wire <$> l)
  = sum_list_with (fun g => if decide (Types.s_status g = k)
                            then Types.s_count g else 0) l.
Proof.
  unfold count_of. induction l as [|g r IH]; [done|].
  rewrite !fmap_cons. intros Hnd. apply NoDup_cons in Hnd as [Hg Hr].
  cbn [List.find sum_list_with stats_of_wire Client.s_status Client.s_count].
  destruct (String.eqb_spec (Types.s_status g) k) as [Hk|Hk].
  - rewrite decide_True by done.
    rewrite group_sum_absent; [simpl; lia|]. by rewrite <-Hk.
  - rewrite decide_False by done. by rewrite IH.
Qed.

Lemma open_done_partition (l : list ITask) :
  Forall (fun t => Types.status t = "open" \/ Types.status t = "done") l ->
  List.length (filter (fun t => Types.status t = "open") l)
  + List.length (filter (fun t => Types.status t = "done") l)
  = List.length l.
Proof.
  induction 1 as [|t l Ht Hl IH]; [done|].
  rewrite !filter_cons.
  destruct Ht as [Ht|Ht]; rewrite Ht; simpl; lia.
Qed.

(** X26: from the store to the panel: when every stored task is [open] or
    [done], the statistics answered by GET /api/tasks/stats, read by
    [getTaskStats], give the panel a total equal to the number of stored
    tasks, with the open and done counts those of the collection; the
    panel shows exactly when the collection is not empty. *)
Theorem stats_panel_matches_store
  (production : bool) (body : list (string * Express.JsonValue))
  (c : Collection) :
  map_Forall (fun _ d => d_status d = "open" \/ d_status d = "done") c ->
  exists envelope,
    App.handle production (Express.mkRequest Express.GET "/api/tasks/stats"
                             body) c
      = Some (Express.mkResponse 200 envelope, c)
    /\ openCount (getTaskStats envelope)
       = List.length (filter (fun t => Types.status t = "open") (all_docs c))
    /\ doneCount (getTaskStats envelope)
       = List.length (filter (fun t => Types.status t = "done") (all_docs c))
    /\ totalCount (getTaskStats envelope) = size c
    /\ (statsVisible (Some (getTaskStats envelope)) = true <-> c <> ∅).
Proof.
  intros Hc. eexists. split; [reflexivity|].
  cbn [getTaskStats Express.data].
  destruct (StoreFacts.foldl_bump_invariants (all_docs c) [])
    as (Hnd & _ & _ & _); [apply NoDup_nil_2 | constructor |].
  cbn zeta in Hnd.
  assert (Hcount : forall k,
            count_of k (stats_of_wire <$>
              foldl (fun acc t => bump (Types.status t) acc) [] (all_docs c))
            = List.length (filter (fun t => Types.status t = k) (all_docs c))).
  { intros k. rewrite count_of_wire by done.
    by rewrite TaskDataFacts.foldl_bump_group. }
  assert (Htotal : totalCount (stats_of_wire <$>
              foldl (fun acc t => bump (Types.status t) acc) [] (all_docs c))
            = size c).
  { unfold totalCount, openCount, doneCount. rewrite !Hcount.
    rewrite open_done_partition; [apply TaskDataFacts.all_docs_length|].
    apply Forall_forall. intros t Ht.
    apply TaskDataFacts.elem_of_all_docs in Ht as (d & Hd & ->).
    apply (Hc _ _ Hd). }
  split; [apply Hcount|]. split; [apply Hcount|]. split; [exact Htotal|].
  unfold statsVisible. rewrite Htotal, negb_true_iff, Nat.eqb_neq.
  apply map_size_non_empty_iff.
Qed.

Lemma stats_panel_matches_store_witness :
  map_Forall (fun _ d => d_status d = "open" \/ d_status d = "done") (seed 0)
  /\ exists envelope,
       App.handle false (Express.mkRequest Express.GET "/api/tasks/stats" [])
         (seed 0)
       = Some (Express.mkResponse 200 envelope, seed 0)
       /\ totalCount (getTaskStats envelope) = size (seed 0).
Proof.
  assert (H : map_Forall
                (fun _ d => d_status d = "open" \/ d_status d = "done")
                (seed 0)).
  { unfold seed. repeat apply map_Forall_insert_2; simpl; auto.
    apply map_Forall_empty. }
  split; [exact H|].
  destruct (stats_panel_matches_store false [] (seed 0) H)
    as (envelope & He & _ & _ & Ht & _).
  exists envelope. split; [exact He | exact Ht].
Defined.

(** *** The task item *)

Section handlers.
Variable mutateAsync : string * UpdateTaskInput -> Promise Task.

(** X27: whatever [handleSaveEdit] sends is an update of the task's own id
    that sets only the title, to the trimmed text of the field; that title
    is neither empty nor the task's current one, and, the field holding at
    most 200 characters, it passes the store's validators and is stored as
    sent. *)
Theorem handleSaveEdit_sends_valid_title
  (task : Task) (st : ItemState) (v : string * UpdateTaskInput) :
  String.length (editTitle st) <= 200 ->
  e_sent (handleSaveEdit mutateAsync task st) = Some v ->
  v = (Client.id task, mkUpdate (Some (trim (editTitle st))) None)
  /\ trim (editTitle st) <> EmptyString
  /\ trim (editTitle st) <> Client.title task
  /\ validate_update v.2 = None
  /\ cast_title (trim (editTitle st)) = trim (editTitle st).
Proof.
  intros Hlen. unfold handleSaveEdit.
  destruct (String.eqb_spec (trim (editTitle st)) EmptyString) as [He|Hne];
    [done|].
  destruct (String.eqb_spec (trim (editTitle st)) (Client.title task))
    as [Hsame|Hdiff]; [done|].
  intros Hsent.
  assert (v = (Client.id task, mkUpdate (Some (trim (editTitle st))) None))
    as ->.
  { destruct (mutateAsync _); by injection Hsent as <-. }
  split; [done|]. split; [done|]. split; [done|].
  split; [|apply TrimFacts.trim_idem].
  apply TaskDataFacts.validate_update_None_iff. cbn [snd u_title u_status].
  split; [|done]. intros t [= <-]. rewrite TrimFacts.trim_idem.
  pose proof (TrimFacts.trim_length (editTitle st)).
  assert (String.length (trim (editTitle st)) <> 0).
  { intros H0. by apply TrimFacts.trim_blank_iff in H0. }
  lia.
Qed.

(** X28: [handleToggleStatus] always sends an update of the status alone, to a
    value the store accepts: [done] for an open task, [open] for any
    other; it leaves the edit state alone, and toggling an open or done
    task twice asks for its first status again. *)
Theorem handleToggleStatus_sends_valid_status (task : Task) (st : ItemState) :
  e_sent (handleToggleStatus mutateAsync task st)
    = Some (Client.id task,
            mkUpdate None (Some (other_status (Client.status task))))
  /\ validate_update
       (mkUpdate None (Some (other_status (Client.status task)))) = None
  /\ e_state (handleToggleStatus mutateAsync task st) = st
  /\ (other_status (other_status (Client.status task)) = Client.status task
      <-> Client.status task = "open" \/ Client.status task = "done").
Proof.
  unfold handleToggleStatus.
  split; [by destruct (mutateAsync _)|].
  split.
  { apply TaskDataFacts.validate_update_None_iff. cbn [u_title u_status].
    split; [done|]. intros s [= <-]. unfold other_status.
    destruct (String.eqb (Client.status task) "open"); auto. }
  split; [by destruct (mutateAsync _)|].
  unfold other_status.
  destruct (String.eqb_spec (Client.status task) "open") as [Ho|Ho].
  - rewrite Ho. cbn. split; auto.
  - cbn. split; [auto|]. intros [H|H]; [done|]. by rewrite H.
Qed.

End handlers.

Lemma handleSaveEdit_sends_valid_title_witness :
  let task := mkTask "650000000000000000000001" "Water the plants" "open"
                     "2025-09-15T10:30:00.000Z" "2025-09-15T10:30:00.000Z" in
  let st := mkItem true "  Water the garden " in
  String.length (editTitle st) <= 200
  /\ e_sent (handleSaveEdit (fun v => updateTask v.1 v.2) task st)
     = Some ("650000000000000000000001",
             mkUpdate (Some "Water the garden") None)
  /\ validate_update (mkUpdate (Some "Water the garden") None) = None.
Proof.
  intros task st.
  assert (H1 : String.length (editTitle st) <= 200) by (vm_compute; lia).
  assert (H2 : e_sent (handleSaveEdit (fun v => updateTask v.1 v.2) task st)
               = Some ("650000000000000000000001",
                       mkUpdate (Some "Water the garden") None))
    by reflexivity.
  split; [exact H1|]. split; [exact H2|].
  destruct (handleSaveEdit_sends_valid_title
              (fun v => updateTask v.1 v.2) task st _ H1 H2)
    as (_ & _ & _ & Hv & _).
  exact Hv.
Defined.

End FrontendFacts.
